(** * Classic Doctor Who comics scraper ([final2.py]): model and properties

    The development follows the source file top-down:
    - [PyStr]: the [str] methods the program calls ([strip], [lower],
      [replace], [int] parsing, [format]);
    - [make_safe_name] and the per-node loop of [scrape_doctor_section];
    - [create_csv], [create_pdf], [choose_doctor_keys] and [main], run
      against an explicit environment (keyboard line, web pages) and
      producing a log of the effects performed.

    A Python [str] is modelled by [string]; each [ascii] is read as the
    code point of the same number (0..255).  The third-party functions
    [pathvalidate.sanitize_filename], [urllib.parse.urljoin] and
    [os.path.join] are Section variables of the scraper. *)

From Stdlib Require Import ZArith Ascii String DecimalString.
From Stdlib Require DecimalNat.
From stdpp Require Import gmap strings list.

Local Open Scope string_scope.

(** ** Python string methods *)

Module PyStr.

(** [str.isspace] on one code point below 256: TAB..CR, FS..US, SPACE,
    NEL (0x85) and NBSP (0xA0). *)
Definition isspace (c : ascii) : bool :=
  let n := nat_of_ascii c in
  (((9 <=? n) && (n <=? 13)) || ((28 <=? n) && (n <=? 32))
   || (n =? 133) || (n =? 160))%nat.

(** [str.lower] on one code point below 256: A..Z and the upper-case
    Latin-1 letters 0xC0..0xDE (the multiplication sign 0xD7 apart). *)
Definition lower_char (c : ascii) : ascii :=
  let n := nat_of_ascii c in
  if (((65 <=? n) && (n <=? 90))
      || ((192 <=? n) && (n <=? 222) && negb (n =? 215)))%nat
  then ascii_of_nat (n + 32) else c.

Fixpoint lower (s : string) : string :=
  match s with
  | EmptyString => EmptyString
  | String c r => String (lower_char c) (lower r)
  end.

Fixpoint lstrip (s : string) : string :=
  match s with
  | EmptyString => EmptyString
  | String c r => if isspace c then lstrip r else s
  end.

Fixpoint rstrip (s : string) : string :=
  match s with
  | EmptyString => EmptyString
  | String c r =>
      match rstrip r with
      | EmptyString => if isspace c then EmptyString else String c EmptyString
      | String d t => String c (String d t)
      end
  end.

(** [s.strip()] *)
Definition strip (s : string) : string := rstrip (lstrip s).

(** [s.replace(a, b)] for one-character [a] and [b]. *)
Fixpoint replace_char (a b : ascii) (s : string) : string :=
  match s with
  | EmptyString => EmptyString
  | String c r =>
      String (if Ascii.eqb c a then b else c) (replace_char a b r)
  end.

(** Truthiness of a [str]: [if not s] takes the branch on the empty
    string only. *)
Definition is_empty (s : string) : bool :=
  match s with EmptyString => true | String _ _ => false end.

Fixpoint forallb (p : ascii -> bool) (s : string) : bool :=
  match s with
  | EmptyString => true
  | String c r => p c && forallb p r
  end.

Fixpoint filter (p : ascii -> bool) (s : string) : string :=
  match s with
  | EmptyString => EmptyString
  | String c r => if p c then String c (filter p r) else filter p r
  end.

(** Empty, or starting with a character that is not whitespace. *)
Definition starts_clean (s : string) : bool :=
  match s with
  | EmptyString => true
  | String c _ => negb (isspace c)
  end.

(** [str(n)] for a non-negative integer. *)
Definition str_of_nat (n : nat) : string :=
  NilEmpty.string_of_uint (Nat.to_uint n).

(** [f"{n:02d}"]: decimal, padded with a zero to width two. *)
Definition format_02d (n : nat) : string :=
  if (n <? 10)%nat then String "0" (str_of_nat n) else str_of_nat n.

Definition is_digit (c : ascii) : bool :=
  let n := nat_of_ascii c in ((48 <=? n) && (n <=? 57))%nat.

Definition digit_value (c : ascii) : Z :=
  (Z.of_nat (nat_of_ascii c) - 48)%Z.

(** The whitespace [int] skips around the number: TAB..CR, SPACE, NEL
    and NBSP (but not FS..US). *)
Definition int_space (c : ascii) : bool :=
  let n := nat_of_ascii c in
  (((9 <=? n) && (n <=? 13)) || (n =? 32) || (n =? 133) || (n =? 160))%nat.

Fixpoint skip_int_space (s : string) : string :=
  match s with
  | EmptyString => EmptyString
  | String c r => if int_space c then skip_int_space r else s
  end.

(** The digits of an [int] literal after the sign: a digit first, then
    digits with single underscores between them, then whitespace only.
    [acc] is the value read so far, [after_digit] tells whether the
    previous character was a digit. *)
Fixpoint parse_digits (acc : Z) (after_digit : bool) (s : string)
  : option Z :=
  match s with
  | EmptyString => if after_digit then Some acc else None
  | String c r =>
      if is_digit c then parse_digits (10 * acc + digit_value c)%Z true r
      else if Ascii.eqb c "_" && after_digit then
             match r with
             | String d _ =>
                 if is_digit d then parse_digits acc false r else None
             | EmptyString => None
             end
      else if after_digit && forallb int_space s then Some acc
      else None
  end.

(** [int(s)]: [None] stands for [ValueError].  (The limit some Python
    versions put on the number of digits is left out.) *)
Definition parse_int (s : string) : option Z :=
  match skip_int_space s with
  | String "+" r => parse_digits 0 false r
  | String "-" r => Z.opp <$> parse_digits 0 false r
  | t => parse_digits 0 false t
  end.

End PyStr.

(** ** Effects: a log of the actions performed, and exceptions *)

(** A cell of a written table: [csv.writer] is handed an [int] for the
    index column and [str]s elsewhere. *)
Inductive cell :=
| CInt (n : nat)
| CStr (s : string).

(** The observable actions of the program, in the order performed.
    Console output is left out.  The calls to the file system, to
    [input] and to reportlab are taken to succeed: in this model a run
    ends early only on a missing counter or on a failed page request. *)
Inductive event :=
| Makedirs (path : string)                       (* os.makedirs(path, exist_ok=True), taken to succeed *)
| HttpGet (url : string)                         (* requests.get(section_url, timeout=20) *)
| DownloadImage (img_url filepath : string)      (* download_image(img_url, filepath) *)
| Sleep                                          (* time.sleep(0.3) *)
| WriteCsv (path : string) (table : list (list cell))
| WritePdf (path : string) (table : list (list string)).

Inductive exn :=
| KeyError (key : string)     (* dict lookup of an absent key *)
| RequestException.           (* requests.get / raise_for_status failed *)

Inductive outcome (A : Type) :=
| Returned (a : A)
| Raised (e : exn).
Arguments Returned {A} a.
Arguments Raised {A} e.

Definition outcome_map {A B} (f : A -> B) (o : outcome A) : outcome B :=
  match o with
  | Returned a => Returned (f a)
  | Raised e => Raised e
  end.

(** A computation: the events it performed, and how it ended. *)
Definition M (A : Type) : Type := list event * outcome A.

Definition ret {A} (a : A) : M A := ([], Returned a).

Definition bind {A B} (m : M A) (k : A -> M B) : M B :=
  match m with
  | (l, Returned a) => let '(l', r) := k a in ((l ++ l')%list, r)
  | (l, Raised e) => (l, Raised e)
  end.

Definition emit (e : event) : M unit := ([e], Returned tt).

Definition raise {A} (e : exn) : M A := ([], Raised e).

Notation "'let*' x ':=' m 'in' k" := (bind m (fun x => k))
  (at level 10, x name, m at level 100, k at level 200).
Notation "m ';;' k" := (bind m (fun _ => k))
  (at level 100, k at level 200, right associativity).

(** [for x in l: s = body(s, x)] *)
Fixpoint for_each {A S} (body : S -> A -> M S) (s : S) (l : list A) : M S :=
  match l with
  | [] => ret s
  | x :: r => let* s' := body s x in for_each body s' r
  end.

(** ** Data *)

(** A node of [soup.find_all(["h2", "img"])]: an [h2] with its
    [get_text()], or an [img] with its [get("src")]. *)
Inductive node :=
| H2 (text : string)
| Img (src : option string).

(** A tuple [(doctor_key, title_lower, title_safe)] of
    [titles_for_doctor]. *)
Record row := Row {
  row_doctor : string;
  title_lower : string;
  title_safe : string
}.

(** The variables of the loop of [scrape_doctor_section]. *)
Record scrape_state := ScrapeState {
  current_title : option string;
  image_counters : gmap string nat;
  titles_for_doctor : list row;
  titles_seen : gset string
}.

Definition scrape_init : scrape_state :=
  ScrapeState None ∅ [] ∅.

Definition DOCTOR_SECTIONS : list (string * string) :=
  [ ("first_doctor",  "https://classicdoctorwhocomics.wordpress.com/first-doctor-comics/");
    ("second_doctor", "https://classicdoctorwhocomics.wordpress.com/second-doctor-comics/");
    ("third_doctor",  "https://classicdoctorwhocomics.wordpress.com/third-doctor-comics/");
    ("fourth_doctor", "https://classicdoctorwhocomics.wordpress.com/fourth-doctor-comics/") ].

(** [DOCTOR_SECTIONS.get(key)] *)
Fixpoint dict_get (d : list (string * string)) (key : string) : option string :=
  match d with
  | [] => None
  | (k, v) :: r => if String.eqb k key then Some v else dict_get r key
  end.

(** What the program reads from outside: the line typed at the prompt,
    the home directory, and for each URL the [h2]/[img] nodes of the page
    ([None] when [requests.get] or [raise_for_status] raises). *)
Record world := World {
  typed_line : string;
  home_dir : string;
  page_nodes : string -> option (list node)
}.

(** The invariant of the loop over the nodes: the current title, when
    there is one, is a key of the counters. *)
Definition counters_inv (st : scrape_state) : Prop :=
  match current_title st with
  | None => True
  | Some title => is_Some (image_counters st !! title)
  end.

(** The [src] of an [img] that passes [if not src: continue]. *)
Definition usable_src (src : option string) : option string :=
  match src with
  | Some s => if PyStr.is_empty s then None else Some s
  | None => None
  end.

Fixpoint usable_srcs (srcs : list (option string)) : list string :=
  match srcs with
  | [] => []
  | src :: r =>
      match usable_src src with
      | Some s => s :: usable_srcs r
      | None => usable_srcs r
      end
  end.

(** The texts of the [h2] nodes, in document order. *)
Fixpoint heading_texts (nodes : list node) : list string :=
  match nodes with
  | [] => []
  | H2 t :: r => t :: heading_texts r
  | Img _ :: r => heading_texts r
  end.

(** The values of [l] not in [seen], each once, in first-seen order. *)
Fixpoint first_seen (seen : gset string) (l : list string) : list string :=
  match l with
  | [] => []
  | x :: r =>
      if decide (x ∈ seen) then first_seen seen r
      else x :: first_seen ({[x]} ∪ seen) r
  end.

Definition distinct (l : list string) : list string := first_seen ∅ l.

Definition nonempty (s : string) : bool := negb (PyStr.is_empty s).

(** The events of the loop over the nodes. *)
Definition is_loop_event (e : event) : bool :=
  match e with
  | Makedirs _ | DownloadImage _ _ | Sleep => true
  | _ => false
  end.

(** The events that write the manifest. *)
Definition is_manifest_write (e : event) : bool :=
  match e with
  | WriteCsv _ _ | WritePdf _ _ => true
  | _ => false
  end.

Definition index_of (r : list cell) : option nat :=
  match r with
  | CInt n :: _ => Some n
  | _ => None
  end.

Section Scraper.

(** [pathvalidate.sanitize_filename], [urllib.parse.urljoin] and the
    two-argument [os.path.join]. *)
Variable sanitize_filename : string -> string.
Variable urljoin : string -> string -> string.
Variable os_path_join : string -> string -> string.

Definition make_safe_name (name : string) : string :=
  let name := PyStr.strip name in
  let name := sanitize_filename name in
  let name := PyStr.replace_char " " "_" name in
  let name := PyStr.lower name in
  name.

Definition get_download_root (w : world) : M string :=
  let desktop := os_path_join (home_dir w) "Desktop" in
  let download_root := os_path_join desktop "comic_images" in
  emit (Makedirs download_root) ;;
  ret download_root.

Definition setup_doctor_folder (download_root doctor_key : string) : M string :=
  let doctor_folder := os_path_join download_root doctor_key in
  emit (Makedirs doctor_folder) ;;
  ret doctor_folder.

(** [download_image] catches every exception of the request and of the
    file write: it always returns. *)
Definition download_image (img_url filepath : string) : M unit :=
  emit (DownloadImage img_url filepath).

(** One iteration of the loop over the nodes. *)
Definition process_node (section_url doctor_key doctor_folder : string)
    (st : scrape_state) (n : node) : M scrape_state :=
  match n with
  | H2 raw_title =>
      let title_text := PyStr.strip raw_title in
      if PyStr.is_empty title_text then
        ret (ScrapeState None (image_counters st)
                         (titles_for_doctor st) (titles_seen st))
      else
        let safe_title := make_safe_name title_text in
        if PyStr.is_empty safe_title then
          ret (ScrapeState None (image_counters st)
                           (titles_for_doctor st) (titles_seen st))
        else
          let title_folder := os_path_join doctor_folder safe_title in
          emit (Makedirs title_folder) ;;
          let counters := <[title_text := 0]> (image_counters st) in
          if decide (safe_title ∈ titles_seen st) then
            ret (ScrapeState (Some title_text) counters
                             (titles_for_doctor st) (titles_seen st))
          else
            ret (ScrapeState (Some title_text) counters
                   (titles_for_doctor st
                      ++ [Row doctor_key (PyStr.lower title_text) safe_title])%list
                   ({[safe_title]} ∪ titles_seen st))
  | Img src =>
      match current_title st with
      | None => ret st
      | Some title =>
          match src with
          | None => ret st
          | Some src =>
              if PyStr.is_empty src then ret st
              else
                let img_url := urljoin section_url src in
                match image_counters st !! title with
                | None => raise (KeyError title)
                | Some n =>
                    let page_num := S n in
                    let counters := <[title := page_num]> (image_counters st) in
                    let safe_title := make_safe_name title in
                    let title_folder := os_path_join doctor_folder safe_title in
                    let filename :=
                      "page_" ++ PyStr.format_02d page_num ++ ".jpg" in
                    let filepath := os_path_join title_folder filename in
                    download_image img_url filepath ;;
                    emit Sleep ;;
                    ret (ScrapeState (Some title) counters
                                     (titles_for_doctor st) (titles_seen st))
                end
          end
      end
  end.

(** The events of the images [(page number, src)] of one title. *)
Definition page_events (section_url title_folder : string)
    (pages : list (nat * string)) : list event :=
  flat_map
    (fun '(page_num, src) =>
       [DownloadImage (urljoin section_url src)
          (os_path_join title_folder
             ("page_" ++ PyStr.format_02d page_num ++ ".jpg"));
        Sleep])
    pages.

(** A heading that opens a title: non-empty once stripped and once
    sanitized. *)
Definition valid_heading (raw_title : string) : Prop :=
  PyStr.strip raw_title <> "" /\ make_safe_name raw_title <> "".

Definition valid_heading_b (raw_title : string) : bool :=
  nonempty (PyStr.strip raw_title) && nonempty (make_safe_name raw_title).

(** The rows a sequence of heading texts gives, [seen] being the safe
    names met before: one row for each valid heading whose safe name
    is new. *)
Fixpoint rows_from (doctor_key : string) (seen : gset string)
    (texts : list string) : list row :=
  match texts with
  | [] => []
  | raw :: rest =>
      let safe_title := make_safe_name raw in
      if valid_heading_b raw then
        if decide (safe_title ∈ seen) then rows_from doctor_key seen rest
        else Row doctor_key (PyStr.lower (PyStr.strip raw)) safe_title
               :: rows_from doctor_key ({[safe_title]} ∪ seen) rest
      else rows_from doctor_key seen rest
  end.

Definition scrape_nodes (section_url doctor_key doctor_folder : string)
    (st : scrape_state) (nodes : list node) : M scrape_state :=
  for_each (process_node section_url doctor_key doctor_folder) st nodes.

Definition scrape_doctor_section (w : world)
    (section_url doctor_key download_root : string) : M (list row) :=
  let* doctor_folder := setup_doctor_folder download_root doctor_key in
  emit (HttpGet section_url) ;;
  match page_nodes w section_url with
  | None => raise RequestException
  | Some nodes =>
      let* st := scrape_nodes section_url doctor_key doctor_folder
                              scrape_init nodes in
      ret (titles_for_doctor st)
  end.

(** The rows of [create_csv], numbered by the running [counter]. *)
Fixpoint csv_rows (counter : nat) (all_rows : list row) : list (list cell) :=
  match all_rows with
  | [] => []
  | r :: rest =>
      let counter := counter + 1 in
      [CInt counter; CStr (row_doctor r); CStr (title_lower r);
       CStr (title_safe r)] :: csv_rows counter rest
  end.

Definition csv_table (all_rows : list row) : list (list cell) :=
  [CStr "index"; CStr "doctor"; CStr "title_lower"; CStr "title_safe"]
    :: csv_rows 0 all_rows.

Definition create_csv (all_rows : list row) (csv_path : string) : M unit :=
  emit (WriteCsv csv_path (csv_table all_rows)).

Fixpoint pdf_rows (counter : nat) (all_rows : list row) : list (list string) :=
  match all_rows with
  | [] => []
  | r :: rest =>
      let counter := counter + 1 in
      [PyStr.str_of_nat counter; row_doctor r; title_lower r; title_safe r]
        :: pdf_rows counter rest
  end.

Definition pdf_table (all_rows : list row) : list (list string) :=
  ["#"; "Doctor"; "Title (lower)"; "Title (safe)"] :: pdf_rows 0 all_rows.

Definition create_pdf (all_rows : list row) (pdf_path : string) : M unit :=
  emit (WritePdf pdf_path (pdf_table all_rows)).

Definition choose_doctor_keys (w : world) : list string :=
  let options := map fst DOCTOR_SECTIONS in
  let choice := PyStr.strip (typed_line w) in
  match PyStr.parse_int choice with
  | None => []
  | Some num =>
      if (num =? Z.of_nat (length options) + 1)%Z then options
      else if ((1 <=? num) && (num <=? Z.of_nat (length options)))%Z then
             match options !! (Z.to_nat (num - 1)) with
             | Some k => [k]
             | None => []
             end
      else []
  end.

(** The loop of [main] over the selected keys. *)
Definition main_section (w : world) (download_root : string)
    (all_rows : list row) (key : string) : M (list row) :=
  match dict_get DOCTOR_SECTIONS key with
  | None => ret all_rows
  | Some url =>
      if PyStr.is_empty url then ret all_rows
      else
        let* titles := scrape_doctor_section w url key download_root in
        ret (all_rows ++ titles)%list
  end.

Definition main (w : world) : M unit :=
  let* download_root := get_download_root w in
  let doctor_keys := choose_doctor_keys w in
  match doctor_keys with
  | [] => ret tt
  | _ :: _ =>
      let* all_rows := for_each (main_section w download_root) [] doctor_keys in
      let csv_path := os_path_join download_root "titles_list.csv" in
      let pdf_path := os_path_join download_root "titles_list.pdf" in
      match all_rows with
      | _ :: _ =>
          create_csv all_rows csv_path ;;
          create_pdf all_rows pdf_path
      | [] => ret tt
      end
  end.

End Scraper.

(** ** The name sanitizer *)

(** Modelled from the spec: [sanitize_filename] is imported from the
    third-party package pathvalidate, whose code is not in the
    repository.  Section 4.1 of the specification: "Remove/replace
    characters illegal in filesystem paths (platform-safe subset: reject
    or strip control characters, path separators, reserved
    punctuation)".  The control characters are the ASCII ones (below
    0x20, and DEL), the path separators are the slash and the backslash,
    and the reserved punctuation is the set of the colon, the star, the
    question mark, the double quote, the angle brackets and the bar. *)
Definition is_control (c : ascii) : bool :=
  let n := nat_of_ascii c in ((n <? 32) || (n =? 127))%nat.

Definition is_illegal (c : ascii) : bool :=
  let n := nat_of_ascii c in
  (is_control c
   || (n =? 47) || (n =? 92)
   || (n =? 58) || (n =? 42) || (n =? 63) || (n =? 34)
   || (n =? 60) || (n =? 62) || (n =? 124))%nat.

Definition sanitize_filename_model (s : string) : string :=
  PyStr.filter (fun c => negb (is_illegal c)) s.

(** [make_safe_name] with that sanitizer: the [sanitize] of the
    specification. *)
Definition sanitize (raw : string) : string :=
  make_safe_name sanitize_filename_model raw.







(** Two-argument [posixpath.join], and [urljoin] on an absolute URL
    (returned unchanged): instances used in the closed examples. *)
Definition posix_join (a b : string) : string :=
  match b with
  | String "/" _ => b
  | _ =>
      if PyStr.is_empty a then b
      else if String.eqb (substring (String.length a - 1) 1 a) "/" then a ++ b
           else a ++ "/" ++ b
  end.

Definition urljoin_absolute (base url : string) : string := url.

(** The line typed at the prompt is not an [int], or is an [int]
    outside 1..5 (four sections, and "all"). *)
Definition invalid_choice (w : world) : Prop :=
  PyStr.parse_int (PyStr.strip (typed_line w)) = None
  \/ exists num, PyStr.parse_int (PyStr.strip (typed_line w)) = Some num
                 /\ (num < 1 \/ 5 < num)%Z.

(** ** Closed instances

    The program with the modelled sanitizer, POSIX paths and absolute
    image URLs, and three outside worlds. *)
Definition main_posix : world -> M unit :=
  main sanitize_filename_model urljoin_absolute posix_join.

(** "all" is typed; the page of the first section has one title, the
    request for the second one fails, the others would succeed. *)
Definition world_second_fails : world :=
  World "5" "/home/user"
    (fun url =>
       if String.eqb url
            "https://classicdoctorwhocomics.wordpress.com/second-doctor-comics/"
       then None else Some [H2 "A"]).

(** Something that is not a number is typed. *)
Definition world_bad_choice : world :=
  World "abc" "/home/user" (fun _ => Some [H2 "A"; Img (Some "1.jpg")]).

(** The first section is chosen; its page has an image and no title. *)
Definition world_no_titles : world :=
  World "1" "/home/user" (fun _ => Some [Img (Some "1.jpg")]).

(** The page of claim C1, for every section. *)
Definition world_two_titles : world :=
  World "1" "/home/user"
    (fun _ => Some [H2 "A"; Img (Some "1.jpg"); Img (Some "2.jpg"); H2 "";
                    Img (Some "3.jpg"); H2 "B"; Img (Some "4.jpg")]).

Ltac ascii_cases c := destruct c as [[] [] [] [] [] [] [] []].


(** ** Further definitions used to state properties of the code *)

(** How [create_pdf] renders what [create_csv] hands to the writer: the
    counter goes through [str], the other cells are strings already. *)
Definition cell_str (c : cell) : string :=
  match c with
  | CInt n => PyStr.str_of_nat n
  | CStr s => s
  end.

(** Not a space, and unchanged by [str.lower]. *)
Definition lower_no_space (c : ascii) : bool :=
  negb (Ascii.eqb c " ") && Ascii.eqb (PyStr.lower_char c) c.

Definition legal (c : ascii) : bool := negb (is_illegal c).

(** The folders made once the log [ev] has run, [made] being those made
    before. *)
Fixpoint made_after (made : list string) (ev : list event) : list string :=
  match ev with
  | [] => made
  | Makedirs p :: r => made_after (p :: made) r
  | _ :: r => made_after made r
  end.

(** Every download of the log writes a file [os.path.join(folder, name)]
    of a folder made earlier in the log (or in [made]). *)
Fixpoint downloads_in_made_folders (os_path_join : string -> string -> string)
    (made : list string) (ev : list event) : Prop :=
  match ev with
  | [] => True
  | Makedirs p :: r => downloads_in_made_folders os_path_join (p :: made) r
  | DownloadImage _ path :: r =>
      (exists folder name, folder ∈ made /\ path = os_path_join folder name)
      /\ downloads_in_made_folders os_path_join made r
  | _ :: r => downloads_in_made_folders os_path_join made r
  end.

Definition is_download (e : event) : bool :=
  match e with DownloadImage _ _ => true | _ => false end.

(** What one node adds to the log: nothing, a folder, or a download and
    its pause. *)
Definition node_log (b : list event) : Prop :=
  b = []
  \/ (exists p, b = [Makedirs p])
  \/ (exists u p, b = [DownloadImage u p; Sleep]).

(** The [src] attributes of the [img] nodes. *)
Fixpoint img_srcs (nodes : list node) : list (option string) :=
  match nodes with
  | [] => []
  | Img src :: r => src :: img_srcs r
  | H2 _ :: r => img_srcs r
  end.

(** The folder of the current title is among the folders made. *)
Definition current_title_folder_made
    (sanitize_filename : string -> string)
    (os_path_join : string -> string -> string)
    (folder : string) (made : list string) (st : scrape_state) : Prop :=
  match current_title st with
  | None => True
  | Some title =>
      os_path_join folder (make_safe_name sanitize_filename title) ∈ made
  end.

(** The rows a selected key adds to [all_rows] when its page is fetched:
    those of the headings of its page, with a fresh [titles_seen]. *)
Definition section_rows (sanitize_filename : string -> string)
    (w : world) (key : string) : list row :=
  match dict_get DOCTOR_SECTIONS key with
  | Some url =>
      if PyStr.is_empty url then []
      else match page_nodes w url with
           | Some nodes =>
               rows_from sanitize_filename key ∅ (heading_texts nodes)
           | None => []
           end
  | None => []
  end.

(** The URLs [main] has to request for the keys, in order. *)
Fixpoint section_urls (keys : list string) : list string :=
  match keys with
  | [] => []
  | k :: r =>
      match dict_get DOCTOR_SECTIONS k with
      | Some url =>
          if PyStr.is_empty url then section_urls r else url :: section_urls r
      | None => section_urls r
      end
  end.

(** The URLs of the page requests of a log, in order. *)
Fixpoint http_urls (ev : list event) : list string :=
  match ev with
  | [] => []
  | HttpGet u :: r => u :: http_urls r
  | _ :: r => http_urls r
  end.

(** What [main] writes at the end for the rows [all_rows]. *)
Definition manifest_writes (os_path_join : string -> string -> string)
    (download_root : string) (all_rows : list row) : list event :=
  match all_rows with
  | [] => []
  | _ :: _ =>
      [WriteCsv (os_path_join download_root "titles_list.csv")
                (csv_table all_rows);
       WritePdf (os_path_join download_root "titles_list.pdf")
                (pdf_table all_rows)]
  end.

(** The file name of a page: [f"page_{page_num:02d}.jpg"]. *)
Definition page_name (page_num : nat) : string :=
  "page_" ++ PyStr.format_02d page_num ++ ".jpg".

(** The files the downloads of a log are saved to, in order. *)
Fixpoint download_paths (ev : list event) : list string :=
  match ev with
  | [] => []
  | DownloadImage _ path :: r => path :: download_paths r
  | _ :: r => download_paths r
  end.

(** What [posixpath.join(a, b)] puts before a relative [b]. *)
Definition posix_dir (a : string) : string :=
  if PyStr.is_empty a then ""
  else if String.eqb (substring (String.length a - 1) 1 a) "/" then a
       else a ++ "/".

(** A download whose URL is [urljoin(section_url, src)] for one of the
    given [src] values (other events pass). *)
Definition download_of (urljoin : string -> string -> string)
    (section_url : string) (srcs : list string) (e : event) : Prop :=
  match e with
  | DownloadImage img_url _ =>
      exists src, src ∈ srcs /\ img_url = urljoin section_url src
  | _ => True
  end.

(** The page of [world_two_titles] without its images. *)
Definition world_headings_only : world :=
  World "1" "/home/user" (fun _ => Some [H2 "A"; H2 ""; H2 "B"]).
(** ** Facts about the string methods *)

Module PyStrFacts.
Import PyStr.

Lemma lstrip_starts_clean s : starts_clean (lstrip s) = true.
Proof.
  induction s as [|c r IH]; simpl; [reflexivity|].
  destruct (isspace c) eqn:E; [exact IH|]. simpl. now rewrite E.
Qed.

Lemma lstrip_fixed s : starts_clean s = true -> lstrip s = s.
Proof.
  destruct s as [|c r]; simpl; [reflexivity|].
  now destruct (isspace c).
Qed.

Lemma rstrip_starts_clean s :
  starts_clean s = true -> starts_clean (rstrip s) = true.
Proof.
  destruct s as [|c r]; simpl; [reflexivity|]. intros Hc.
  destruct (rstrip r); [|exact Hc].
  destruct (isspace c) eqn:E; simpl; [reflexivity|now rewrite E].
Qed.

Lemma rstrip_idem s : rstrip (rstrip s) = rstrip s.
Proof.
  induction s as [|c r IH]; simpl; [reflexivity|].
  destruct (rstrip r) as [|d t] eqn:E.
  - destruct (isspace c) eqn:Ec; simpl; [reflexivity|now rewrite Ec].
  - change (rstrip (String c (String d t)))
      with (match rstrip (String d t) with
            | EmptyString =>
                if isspace c then EmptyString else String c EmptyString
            | String d' t' => String c (String d' t')
            end).
    now rewrite IH.
Qed.

Lemma strip_idem s : strip (strip s) = strip s.
Proof.
  unfold strip.
  rewrite (lstrip_fixed (rstrip (lstrip s))).
  - apply rstrip_idem.
  - apply rstrip_starts_clean, lstrip_starts_clean.
Qed.

Lemma strip_empty : strip "" = "".
Proof. reflexivity. Qed.

Lemma is_empty_true s : is_empty s = true <-> s = "".
Proof. destruct s; simpl; split; congruence. Qed.

Lemma is_empty_false s : is_empty s = false <-> s <> "".
Proof. destruct s; simpl; split; congruence. Qed.

Lemma forallb_lstrip p s : forallb p s = true -> forallb p (lstrip s) = true.
Proof.
  induction s as [|c r IH]; simpl; [reflexivity|]. intros H.
  apply andb_prop in H as [Hc Hr].
  destruct (isspace c); [now apply IH|]. simpl. now rewrite Hc, Hr.
Qed.

Lemma forallb_rstrip p s : forallb p s = true -> forallb p (rstrip s) = true.
Proof.
  induction s as [|c r IH]; simpl; [reflexivity|]. intros H.
  apply andb_prop in H as [Hc Hr]. specialize (IH Hr).
  destruct (rstrip r) as [|d t].
  - destruct (isspace c); simpl; [reflexivity|now rewrite Hc].
  - simpl in *. now rewrite Hc, IH.
Qed.

Lemma forallb_strip p s : forallb p s = true -> forallb p (strip s) = true.
Proof. intros H. now apply forallb_rstrip, forallb_lstrip. Qed.

Lemma forallb_filter p q s :
  forallb p s = true -> forallb p (filter q s) = true.
Proof.
  induction s as [|c r IH]; simpl; [reflexivity|]. intros H.
  apply andb_prop in H as [Hc Hr].
  destruct (q c); simpl; [rewrite Hc|]; now apply IH.
Qed.

Lemma forallb_filter_self q s : forallb q (filter q s) = true.
Proof.
  induction s as [|c r IH]; simpl; [reflexivity|].
  destruct (q c) eqn:E; simpl; [now rewrite E|exact IH].
Qed.

Lemma filter_fixed q s : forallb q s = true -> filter q s = s.
Proof.
  induction s as [|c r IH]; simpl; [reflexivity|]. intros H.
  apply andb_prop in H as [Hc Hr]. now rewrite Hc, IH.
Qed.

Lemma filter_none q s :
  forallb (fun c => negb (q c)) s = true -> filter q s = "".
Proof.
  induction s as [|c r IH]; simpl; [reflexivity|]. intros H.
  apply andb_prop in H as [Hc Hr].
  destruct (q c); [discriminate|now apply IH].
Qed.

Lemma forallb_impl (p q : ascii -> bool) s :
  (forall c, p c = true -> q c = true) ->
  forallb p s = true -> forallb q s = true.
Proof.
  intros Hpq. induction s as [|c r IH]; simpl; [reflexivity|]. intros H.
  apply andb_prop in H as [Hc Hr]. now rewrite (Hpq c Hc), IH.
Qed.

(** A string without whitespace is left alone by [strip]. *)
Lemma rstrip_no_space s :
  forallb (fun c => negb (isspace c)) s = true -> rstrip s = s.
Proof.
  induction s as [|c r IH]; simpl; [reflexivity|]. intros H.
  apply andb_prop in H as [Hc Hr]. rewrite (IH Hr).
  destruct r; [|reflexivity].
  now destruct (isspace c).
Qed.

Lemma strip_no_space s :
  forallb (fun c => negb (isspace c)) s = true -> strip s = s.
Proof.
  intros H. unfold strip. rewrite lstrip_fixed.
  - now apply rstrip_no_space.
  - destruct s as [|c r]; simpl in *; [reflexivity|].
    now apply andb_prop in H as [Hc _].
Qed.

(** A string of whitespace only is stripped to the empty string. *)
Lemma strip_all_space s : forallb isspace s = true -> strip s = "".
Proof.
  unfold strip. induction s as [|c r IH]; simpl; [reflexivity|]. intros H.
  apply andb_prop in H as [Hc Hr]. rewrite Hc. now apply IH.
Qed.



Lemma lower_fixed s :
  forallb (fun c => Ascii.eqb (lower_char c) c) s = true -> lower s = s.
Proof.
  induction s as [|c r IH]; simpl; [reflexivity|]. intros H.
  apply andb_prop in H as [Hc Hr]. apply Ascii.eqb_eq in Hc.
  now rewrite Hc, IH.
Qed.

Lemma replace_char_fixed a b s :
  forallb (fun c => negb (Ascii.eqb c a)) s = true -> replace_char a b s = s.
Proof.
  induction s as [|c r IH]; simpl; [reflexivity|]. intros H.
  apply andb_prop in H as [Hc Hr].
  destruct (Ascii.eqb c a); [discriminate|]. now rewrite IH.
Qed.

Lemma forallb_lower_replace (p q : ascii -> bool) s :
  (forall c, p c = true ->
             q (lower_char (if Ascii.eqb c " " then "_"%char else c)) = true) ->
  forallb p s = true ->
  forallb q (lower (replace_char " " "_" s)) = true.
Proof.
  intros Hpq. induction s as [|c r IH]; simpl; [reflexivity|]. intros H.
  apply andb_prop in H as [Hc Hr]. now rewrite (Hpq c Hc), IH.
Qed.

Lemma forallb_and (p q : ascii -> bool) s :
  forallb p s = true -> forallb q s = true ->
  forallb (fun c => p c && q c) s = true.
Proof.
  induction s as [|c r IH]; simpl; [reflexivity|]. intros H1 H2.
  apply andb_prop in H1 as [Hc1 Hr1]. apply andb_prop in H2 as [Hc2 Hr2].
  now rewrite Hc1, Hc2, IH.
Qed.

End PyStrFacts.

(** ** The sanitizer *)

Section SanitizerFacts.
Import PyStr PyStrFacts.

Lemma make_safe_name_strip sf s :
  make_safe_name sf (strip s) = make_safe_name sf s.
Proof. unfold make_safe_name. now rewrite strip_idem. Qed.

Lemma sanitize_unfold x :
  sanitize x
  = lower (replace_char " " "_" (sanitize_filename_model (strip x))).
Proof. reflexivity. Qed.

Lemma sanitize_filename_model_empty : sanitize_filename_model "" = "".
Proof. reflexivity. Qed.


Lemma lower_replace_no_space c :
  lower_no_space
    (PyStr.lower_char (if Ascii.eqb c " " then "_"%char else c)) = true.
Proof. ascii_cases c; vm_compute; reflexivity. Qed.

Lemma lower_replace_legal c :
  legal c = true ->
  legal (PyStr.lower_char (if Ascii.eqb c " " then "_"%char else c)) = true.
Proof. ascii_cases c; vm_compute; congruence. Qed.

Lemma forallb_true s : PyStr.forallb (fun _ => true) s = true.
Proof. induction s; simpl; auto. Qed.

Lemma lower_no_space_not_space c :
  lower_no_space c = true -> negb (Ascii.eqb c " ") = true.
Proof. ascii_cases c; vm_compute; congruence. Qed.

Lemma lower_no_space_lower c :
  lower_no_space c = true -> Ascii.eqb (lower_char c) c = true.
Proof. ascii_cases c; vm_compute; congruence. Qed.

(** Whatever the sanitizer, a safe name is left alone by [replace] and
    by [lower]. *)
Lemma make_safe_name_settled sf x :
  forallb lower_no_space (make_safe_name sf x) = true.
Proof.
  unfold make_safe_name.
  apply forallb_lower_replace with (p := fun _ => true).
  - intros c _. apply lower_replace_no_space.
  - apply forallb_true.
Qed.

Lemma lower_replace_fixed s :
  forallb lower_no_space s = true ->
  lower (replace_char " " "_" s) = s.
Proof.
  intros Hs.
  rewrite replace_char_fixed
    by (eapply forallb_impl; [apply lower_no_space_not_space|exact Hs]).
  apply lower_fixed.
  eapply forallb_impl; [apply lower_no_space_lower|exact Hs].
Qed.








End SanitizerFacts.




(** C9, as stated, fails: once the slash is removed the name starts
    with a no-break space (0xA0), which [replace] leaves alone and the
    [strip] of the second pass removes. *)
Lemma sanitize_twice_differs :
  sanitize (String "/" (String (ascii_of_nat 160) "a"))
    = String (ascii_of_nat 160) "a"
  /\ sanitize (sanitize (String "/" (String (ascii_of_nat 160) "a"))) = "a"
  /\ sanitize (sanitize (String "/" (String (ascii_of_nat 160) "a")))
     <> sanitize (String "/" (String (ascii_of_nat 160) "a")).
Proof. repeat split. vm_compute. discriminate. Qed.

(** C9, amended: where the sanitizer leaves the stripped safe name
    alone, a second pass of [make_safe_name] returns the first result
    stripped; so it returns the first result itself exactly when that
    result has no leading or trailing whitespace. *)
Theorem make_safe_name_twice
    (sanitize_filename : string -> string) (x : string) :
  let r := make_safe_name sanitize_filename x in
  sanitize_filename (PyStr.strip r) = PyStr.strip r ->
  make_safe_name sanitize_filename r = PyStr.strip r
  /\ (make_safe_name sanitize_filename r = r <-> PyStr.strip r = r).
Proof.
  intros r Hsf.
  assert (Hsecond : make_safe_name sanitize_filename r = PyStr.strip r).
  { unfold make_safe_name at 1. rewrite Hsf.
    apply lower_replace_fixed, PyStrFacts.forallb_strip.
    apply make_safe_name_settled. }
  split; [exact Hsecond|]. now rewrite Hsecond.
Qed.

Lemma make_safe_name_twice_witness :
  sanitize (sanitize (String "a" (String (ascii_of_nat 160) "b / c")))
  = sanitize (String "a" (String (ascii_of_nat 160) "b / c")).
Proof.
  apply (make_safe_name_twice sanitize_filename_model
           (String "a" (String (ascii_of_nat 160) "b / c")));
    reflexivity.
Defined.

(** ** The computation monad *)

Lemma bind_ret_l {A B} (a : A) (k : A -> M B) : bind (ret a) k = k a.
Proof. unfold bind, ret. now destruct (k a). Qed.

Lemma bind_returned {A B} (m : M A) (k : A -> M B) l a l' r :
  m = (l, Returned a) -> k a = (l', r) -> bind m k = ((l ++ l')%list, r).
Proof. intros -> Hk. unfold bind. now rewrite Hk. Qed.

Lemma bind_raised {A B} (m : M A) (k : A -> M B) l e :
  m = (l, Raised e) -> bind m k = (l, Raised e).
Proof. now intros ->. Qed.

Lemma bind_assoc {A B C} (m : M A) (k : A -> M B) (h : B -> M C) :
  bind (bind m k) h = bind m (fun a => bind (k a) h).
Proof.
  destruct m as [l [a|e]]; [|reflexivity]. unfold bind.
  destruct (k a) as [l' [b|e]]; [|reflexivity].
  destruct (h b) as [l'' r]. now rewrite app_assoc.
Qed.

Lemma for_each_app {A S} (body : S -> A -> M S) (l1 l2 : list A) : forall s,
  for_each body s (l1 ++ l2)%list
  = bind (for_each body s l1) (fun s' => for_each body s' l2).
Proof.
  induction l1 as [|x r IH]; intros s; cbn [for_each app].
  - now rewrite bind_ret_l.
  - rewrite bind_assoc. unfold bind at 1 3.
    destruct (body s x) as [l [s'|e]]; [|reflexivity].
    now rewrite IH.
Qed.

(** ** The loop of [scrape_doctor_section] *)

Section ScraperFacts.
Import PyStr PyStrFacts.

Variable sanitize_filename : string -> string.
Variable urljoin : string -> string -> string.
Variable os_path_join : string -> string -> string.
Variables section_url doctor_key doctor_folder : string.

Local Abbreviation safe := (make_safe_name sanitize_filename).
Local Abbreviation step :=
  (process_node sanitize_filename urljoin os_path_join
                section_url doctor_key doctor_folder).
Local Abbreviation run :=
  (scrape_nodes sanitize_filename urljoin os_path_join
                section_url doctor_key doctor_folder).
Local Abbreviation pages := (page_events urljoin os_path_join section_url).

Lemma step_heading_skip st raw :
  strip raw = "" \/ safe raw = "" ->
  step st (H2 raw)
  = ([], Returned (ScrapeState None (image_counters st)
                               (titles_for_doctor st) (titles_seen st))).
Proof.
  intros H. unfold process_node. rewrite make_safe_name_strip.
  destruct (is_empty (strip raw)) eqn:E1; [reflexivity|].
  destruct (is_empty (safe raw)) eqn:E2; [reflexivity|].
  apply is_empty_false in E1, E2. tauto.
Qed.

Lemma step_heading_valid st raw :
  valid_heading sanitize_filename raw ->
  step st (H2 raw)
  = ([Makedirs (os_path_join doctor_folder (safe raw))],
     Returned
       (if decide (safe raw ∈ titles_seen st) then
          ScrapeState (Some (strip raw))
                      (<[strip raw := 0]> (image_counters st))
                      (titles_for_doctor st) (titles_seen st)
        else
          ScrapeState (Some (strip raw))
                      (<[strip raw := 0]> (image_counters st))
                      (titles_for_doctor st
                         ++ [Row doctor_key (lower (strip raw)) (safe raw)])
                      ({[safe raw]} ∪ titles_seen st))).
Proof.
  intros [H1 H2]. unfold process_node. rewrite make_safe_name_strip.
  apply is_empty_false in H1, H2. rewrite H1, H2.
  now destruct (decide (safe raw ∈ titles_seen st)).
Qed.

Lemma step_img_skip st src :
  current_title st = None \/ usable_src src = None ->
  step st (Img src) = ([], Returned st).
Proof.
  intros H. unfold process_node.
  destruct (current_title st) as [title|]; [|reflexivity].
  destruct H as [H|H]; [discriminate|].
  destruct src as [s|]; [|reflexivity]. simpl in H.
  now destruct (is_empty s).
Qed.

Lemma step_img_download st src title s n :
  current_title st = Some title ->
  usable_src src = Some s ->
  image_counters st !! title = Some n ->
  step st (Img src)
  = (pages (os_path_join doctor_folder (safe title)) [(S n, s)],
     Returned (ScrapeState (Some title)
                           (<[title := S n]> (image_counters st))
                           (titles_for_doctor st) (titles_seen st))).
Proof.
  intros Ht Hs Hn. unfold process_node. rewrite Ht, Hn.
  destruct src as [s'|]; [|discriminate]. simpl in Hs.
  destruct (is_empty s'); [discriminate|]. now inversion Hs.
Qed.

(** The invariant is kept, and no step raises. *)
Lemma step_returns st n :
  counters_inv st ->
  exists ev st', step st n = (ev, Returned st') /\ counters_inv st'.
Proof.
  intros Hinv. destruct n as [raw|src].
  - destruct (decide (strip raw = "" \/ safe raw = "")) as [Hs|Hv].
    + rewrite (step_heading_skip _ _ Hs). do 2 eexists. split; [reflexivity|].
      exact I.
    + rewrite step_heading_valid by (split; intros E; apply Hv; tauto).
      do 2 eexists. split; [reflexivity|].
      destruct (decide (safe raw ∈ titles_seen st));
        unfold counters_inv; simpl; rewrite lookup_insert_eq; eauto.
  - destruct (current_title st) as [title|] eqn:Ht.
    + destruct (usable_src src) as [s|] eqn:Hs.
      * pose proof Hinv as Hinv'. unfold counters_inv in Hinv'.
        rewrite Ht in Hinv'. destruct Hinv' as [k Hk].
        rewrite (step_img_download _ _ _ _ _ Ht Hs Hk).
        do 2 eexists. split; [reflexivity|].
        unfold counters_inv; simpl. rewrite lookup_insert_eq; eauto.
      * rewrite step_img_skip by now right. eauto.
    + rewrite step_img_skip by now left. eauto.
Qed.

Lemma run_returns nodes : forall st,
  counters_inv st ->
  exists ev st', run st nodes = (ev, Returned st') /\ counters_inv st'.
Proof.
  induction nodes as [|n r IH]; intros st Hinv.
  - exists [], st. now split.
  - destruct (step_returns st n Hinv) as (ev & st1 & Hstep & Hinv1).
    destruct (IH st1 Hinv1) as (ev' & st2 & Hrun & Hinv2).
    exists (ev ++ ev')%list, st2. split; [|exact Hinv2].
    unfold scrape_nodes in *. simpl.
    now apply bind_returned with (a := st1).
Qed.

Lemma scrape_init_inv : counters_inv scrape_init.
Proof. exact I. Qed.

Lemma run_app st l1 l2 ev1 st1 ev2 r :
  run st l1 = (ev1, Returned st1) ->
  run st1 l2 = (ev2, r) ->
  run st (l1 ++ l2)%list = ((ev1 ++ ev2)%list, r).
Proof.
  intros H1 H2. unfold scrape_nodes in *. rewrite for_each_app.
  now apply bind_returned with (a := st1).
Qed.

(** The images that follow a heading: numbered from the counter on,
    one by one. *)
Lemma run_images srcs : forall st title n,
  current_title st = Some title ->
  image_counters st !! title = Some n ->
  let taken := usable_srcs srcs in
  exists st',
    run st (map Img srcs)
    = (pages (os_path_join doctor_folder (safe title))
             (zip (seq (S n) (length taken)) taken),
       Returned st')
    /\ current_title st' = Some title
    /\ image_counters st' !! title = Some (n + length taken)
    /\ titles_for_doctor st' = titles_for_doctor st
    /\ titles_seen st' = titles_seen st.
Proof.
  induction srcs as [|src r IH]; intros st title n Ht Hn; cbv zeta; simpl.
  - exists st. rewrite Nat.add_0_r. now repeat split.
  - destruct (usable_src src) as [s|] eqn:Hs.
    + set (st1 := ScrapeState (Some title)
                    (<[title := S n]> (image_counters st))
                    (titles_for_doctor st) (titles_seen st)).
      destruct (IH st1 title (S n) eq_refl) as (st' & Hrun & H1 & H2 & H3 & H4).
      { simpl. apply lookup_insert_eq. }
      exists st'. split; [|repeat split; try assumption].
      * unfold scrape_nodes in *. simpl.
        apply (bind_returned _ _ _ st1 _ _
                 (step_img_download st src title s n Ht Hs Hn) Hrun).
      * rewrite H2. simpl. f_equal. lia.
    + destruct (IH st title n Ht Hn) as (st' & Hrun & H1 & H2 & H3 & H4).
      exists st'. split; [|now repeat split].
      unfold scrape_nodes in *. simpl.
      apply (bind_returned _ _ [] st _ _
               (step_img_skip st src (or_intror Hs)) Hrun).
Qed.

(** One heading occurrence: the folder of its safe name, then its
    images as pages 1, 2, 3, ... whatever the state before. *)
Lemma run_title st raw srcs :
  valid_heading sanitize_filename raw ->
  let taken := usable_srcs srcs in
  exists st',
    run st (H2 raw :: map Img srcs)
    = (Makedirs (os_path_join doctor_folder (safe raw))
         :: pages (os_path_join doctor_folder (safe raw))
                  (zip (seq 1 (length taken)) taken),
       Returned st')
    /\ current_title st' = Some (strip raw)
    /\ image_counters st' !! strip raw = Some (length taken)
    /\ counters_inv st'.
Proof.
  intros Hv taken.
  pose proof (step_heading_valid st raw Hv) as Hstep.
  match type of Hstep with _ = (_, Returned ?s) => set (st1 := s) in * end.
  assert (Ht1 : current_title st1 = Some (strip raw)).
  { unfold st1. now destruct (decide _). }
  assert (Hc1 : image_counters st1 !! strip raw = Some 0).
  { unfold st1. destruct (decide _); simpl; apply lookup_insert_eq. }
  destruct (run_images srcs st1 (strip raw) 0 Ht1 Hc1)
    as (st' & Hrun & H1 & H2 & _ & _).
  exists st'. rewrite make_safe_name_strip in Hrun.
  split; [|split; [exact H1|split; [exact H2|]]].
  - unfold scrape_nodes in *. cbn [for_each].
    apply (bind_returned _ _ _ st1 _ _ Hstep Hrun).
  - unfold counters_inv. rewrite H1, H2. eauto.
Qed.

Lemma valid_heading_b_true raw :
  valid_heading_b sanitize_filename raw = true
  <-> valid_heading sanitize_filename raw.
Proof.
  unfold valid_heading_b, valid_heading, nonempty.
  rewrite andb_true_iff, !negb_true_iff, !is_empty_false. tauto.
Qed.

Lemma valid_heading_b_false raw :
  valid_heading_b sanitize_filename raw = false
  <-> strip raw = "" \/ safe raw = "".
Proof.
  unfold valid_heading_b, nonempty.
  rewrite andb_false_iff, !negb_false_iff, !is_empty_true. tauto.
Qed.

(** The rows of the loop are those of [rows_from] on the heading
    texts. *)
Lemma run_rows nodes : forall st,
  counters_inv st ->
  exists ev st',
    run st nodes = (ev, Returned st')
    /\ titles_for_doctor st'
       = (titles_for_doctor st
            ++ rows_from sanitize_filename doctor_key (titles_seen st)
                         (heading_texts nodes))%list.
Proof.
  induction nodes as [|n r IH]; intros st Hinv.
  - exists [], st. split; [reflexivity|]. simpl. now rewrite app_nil_r.
  - destruct (step_returns st n Hinv) as (ev & st1 & Hstep & Hinv1).
    destruct (IH st1 Hinv1) as (ev' & st2 & Hrun & Hrows).
    exists (ev ++ ev')%list, st2. split.
    { unfold scrape_nodes in *. simpl.
      now apply bind_returned with (a := st1). }
    rewrite Hrows. clear Hrun Hrows IH.
    destruct n as [raw|src]; cbn [heading_texts rows_from].
    + destruct (valid_heading_b sanitize_filename raw) eqn:Hv.
      * apply valid_heading_b_true in Hv.
        rewrite (step_heading_valid st raw Hv) in Hstep.
        inversion Hstep; subst; clear Hstep.
        destruct (decide (safe raw ∈ titles_seen st)); simpl;
          [reflexivity|]. now rewrite <- app_assoc.
      * apply valid_heading_b_false in Hv.
        rewrite (step_heading_skip st raw Hv) in Hstep.
        now inversion Hstep; subst.
    + destruct (current_title st) as [title|] eqn:Ht.
      * destruct (usable_src src) as [s|] eqn:Hs.
        -- pose proof Hinv as Hinv'. unfold counters_inv in Hinv'.
           rewrite Ht in Hinv'. destruct Hinv' as [k Hk].
           rewrite (step_img_download _ _ _ _ _ Ht Hs Hk) in Hstep.
           now inversion Hstep; subst.
        -- rewrite step_img_skip in Hstep by now right.
           now inversion Hstep; subst.
      * rewrite step_img_skip in Hstep by now left.
        now inversion Hstep; subst.
Qed.

End ScraperFacts.

(** ** Distinct values and the rows of a page *)

Lemma first_seen_elem l : forall seen x,
  x ∈ first_seen seen l <-> x ∈ l /\ x ∉ seen.
Proof.
  induction l as [|y r IH]; intros seen x; simpl.
  - rewrite !elem_of_nil. tauto.
  - destruct (decide (y ∈ seen)) as [Hy|Hy].
    + rewrite IH, elem_of_cons. split; [tauto|].
      intros [[->|Hx] Hn]; [contradiction|tauto].
    + rewrite !elem_of_cons, IH. split.
      * intros [->|[Hx Hn]]; [tauto|]. split; [tauto|set_solver].
      * intros [[->|Hx] Hn]; [tauto|].
        destruct (decide (x = y)) as [->|Hne]; [tauto|].
        right. split; [exact Hx|set_solver].
Qed.

Lemma first_seen_NoDup l : forall seen, NoDup (first_seen seen l).
Proof.
  induction l as [|y r IH]; intros seen; simpl; [constructor|].
  destruct (decide (y ∈ seen)); [apply IH|].
  constructor; [|apply IH].
  rewrite first_seen_elem. set_solver.
Qed.

Lemma distinct_elem l x : x ∈ distinct l <-> x ∈ l.
Proof. unfold distinct. rewrite first_seen_elem. set_solver. Qed.

Lemma distinct_NoDup l : NoDup (distinct l).
Proof. apply first_seen_NoDup. Qed.

Lemma filter_one {A} (f : A -> string) (l : list A) (x : string) :
  NoDup (map f l) -> x ∈ map f l ->
  length (List.filter (fun a => String.eqb (f a) x) l) = 1.
Proof.
  induction l as [|a r IH]; simpl; intros Hnd Hx.
  - now apply elem_of_nil in Hx.
  - apply NoDup_cons in Hnd as [Ha Hnd].
    destruct (String.eqb_spec (f a) x) as [E|E].
    + simpl. f_equal. subst x.
      assert (Hnone : forall b, b ∈ r -> String.eqb (f b) (f a) = false).
      { intros b Hb. apply String.eqb_neq. intros Eb. apply Ha.
        rewrite <- Eb. apply list_elem_of_fmap. eauto. }
      clear -Hnone. induction r as [|b r IH]; [reflexivity|]. simpl.
      rewrite Hnone by apply list_elem_of_here.
      apply IH. intros c Hc. apply Hnone. now apply list_elem_of_further.
    + apply IH; [exact Hnd|].
      apply elem_of_cons in Hx as [Hx|Hx]; [congruence|exact Hx].
Qed.

Section RowsFacts.
Import PyStr PyStrFacts.

Variable sanitize_filename : string -> string.
Variable doctor_key : string.

Local Abbreviation safe := (make_safe_name sanitize_filename).
Local Abbreviation valid := (valid_heading_b sanitize_filename).
Local Abbreviation rows := (rows_from sanitize_filename doctor_key).

Lemma rows_from_safe texts : forall seen,
  map title_safe (rows seen texts)
  = first_seen seen (map safe (List.filter valid texts)).
Proof.
  induction texts as [|raw r IH]; intros seen; simpl; [reflexivity|].
  destruct (valid raw); simpl; [|apply IH].
  destruct (decide (safe raw ∈ seen)); simpl; [apply IH|].
  now rewrite IH.
Qed.

(** A row comes from the first valid heading that has its safe name. *)
Lemma rows_from_first texts : forall seen r,
  r ∈ rows seen texts ->
  row_doctor r = doctor_key
  /\ (title_safe r ∉ seen)
  /\ exists pre raw post,
       texts = (pre ++ raw :: post)%list
       /\ valid raw = true
       /\ safe raw = title_safe r
       /\ (forall p, p ∈ pre -> valid p = true -> safe p <> title_safe r)
       /\ title_lower r = lower (strip raw).
Proof.
  induction texts as [|raw rest IH]; intros seen r Hr; simpl in Hr.
  - now apply elem_of_nil in Hr.
  - destruct (valid raw) eqn:Hv.
    + destruct (decide (safe raw ∈ seen)) as [Hs|Hs].
      * destruct (IH _ _ Hr) as (Hk & Hn & pre & raw' & post & -> & H1 & H2 & H3 & H4).
        split; [exact Hk|]. split; [exact Hn|].
        exists (raw :: pre), raw', post. repeat split; try assumption.
        intros p Hp Hvp. apply elem_of_cons in Hp as [->|Hp]; [|now apply H3].
        intros E. apply Hn. now rewrite <- E.
      * apply elem_of_cons in Hr as [->|Hr].
        -- simpl. split; [reflexivity|]. split; [exact Hs|].
           exists [], raw, rest. repeat split; try assumption.
           intros p Hp. now apply elem_of_nil in Hp.
        -- destruct (IH _ _ Hr) as (Hk & Hn & pre & raw' & post & -> & H1 & H2 & H3 & H4).
           split; [exact Hk|]. split; [set_solver|].
           exists (raw :: pre), raw', post. repeat split; try assumption.
           intros p Hp Hvp. apply elem_of_cons in Hp as [->|Hp]; [|now apply H3].
           intros E. apply Hn. rewrite <- E. set_solver.
    + destruct (IH _ _ Hr) as (Hk & Hn & pre & raw' & post & -> & H1 & H2 & H3 & H4).
      split; [exact Hk|]. split; [exact Hn|].
      exists (raw :: pre), raw', post. repeat split; try assumption.
      intros p Hp Hvp. apply elem_of_cons in Hp as [->|Hp]; [|now apply H3].
      congruence.
Qed.

(** When the sanitizer maps the empty name to itself, the valid
    headings are those whose safe name is not empty. *)
Hypothesis sanitize_filename_empty : sanitize_filename "" = "".

Lemma valid_iff_nonempty raw : valid raw = nonempty (safe raw).
Proof.
  unfold valid_heading_b.
  destruct (nonempty (strip raw)) eqn:E; [reflexivity|].
  unfold nonempty in E. apply negb_false_iff, is_empty_true in E.
  unfold make_safe_name. now rewrite E, sanitize_filename_empty.
Qed.

Lemma filter_valid texts :
  map safe (List.filter valid texts)
  = List.filter nonempty (map safe texts).
Proof.
  induction texts as [|raw r IH]; simpl; [reflexivity|].
  rewrite valid_iff_nonempty.
  destruct (nonempty (safe raw)); simpl; now rewrite IH.
Qed.

End RowsFacts.

(** ** Properties of one section *)

Section SectionTheorems.
Import PyStr PyStrFacts.

Variable sanitize_filename : string -> string.
Variable urljoin : string -> string -> string.
Variable os_path_join : string -> string -> string.

Local Abbreviation safe := (make_safe_name sanitize_filename).
Local Abbreviation run :=
  (scrape_nodes sanitize_filename urljoin os_path_join).
Local Abbreviation pages := (page_events urljoin os_path_join).
Local Abbreviation scrape :=
  (scrape_doctor_section sanitize_filename urljoin os_path_join).

Lemma scrape_section_ok w url key root nodes ev st :
  page_nodes w url = Some nodes ->
  run url key (os_path_join root key) scrape_init nodes = (ev, Returned st) ->
  scrape w url key root
  = (Makedirs (os_path_join root key) :: HttpGet url :: ev,
     Returned (titles_for_doctor st)).
Proof.
  intros Hp Hrun. unfold scrape_doctor_section, setup_doctor_folder.
  rewrite Hp. unfold bind at 1 2 3, emit, ret. cbn [app].
  unfold bind at 1. rewrite Hrun. unfold ret. cbn [app].
  now rewrite app_nil_r.
Qed.

Lemma scrape_section_fail w url key root :
  page_nodes w url = None ->
  scrape w url key root
  = ([Makedirs (os_path_join root key); HttpGet url],
     Raised RequestException).
Proof.
  intros Hp. unfold scrape_doctor_section, setup_doctor_folder.
  now rewrite Hp.
Qed.

Lemma scrape_section_raised w url key root nodes ev e :
  page_nodes w url = Some nodes ->
  run url key (os_path_join root key) scrape_init nodes = (ev, Raised e) ->
  scrape w url key root
  = (Makedirs (os_path_join root key) :: HttpGet url :: ev, Raised e).
Proof.
  intros Hp Hrun. unfold scrape_doctor_section, setup_doctor_folder.
  rewrite Hp. unfold bind at 1 2 3, emit, ret. cbn [app].
  unfold bind at 1. now rewrite Hrun.
Qed.

(** C10: at every point of the loop the current title is [None] or a
    key of [image_counters], so the loop never raises [KeyError]; and
    the images that follow one heading occurrence are numbered 1, 2,
    3, ... *)
Theorem current_title_has_counter (url key folder : string) :
  (forall nodes,
      exists ev st,
        run url key folder scrape_init nodes = (ev, Returned st)
        /\ counters_inv st)
  /\ (forall pre raw srcs,
         valid_heading sanitize_filename raw ->
         exists ev_pre st_pre st,
           run url key folder scrape_init pre = (ev_pre, Returned st_pre)
           /\ counters_inv st_pre
           /\ run url key folder scrape_init
                  (pre ++ H2 raw :: map Img srcs)%list
              = ((ev_pre
                    ++ Makedirs (os_path_join folder (safe raw))
                    :: pages url (os_path_join folder (safe raw))
                         (zip (seq 1 (length (usable_srcs srcs)))
                              (usable_srcs srcs)))%list,
                 Returned st)
           /\ image_counters st !! strip raw
              = Some (length (usable_srcs srcs))
           /\ counters_inv st).
Proof.
  split.
  - intros nodes. apply run_returns, scrape_init_inv.
  - intros pre raw srcs Hv.
    destruct (run_returns sanitize_filename urljoin os_path_join
                url key folder pre scrape_init scrape_init_inv)
      as (ev_pre & st_pre & Hpre & Hinv).
    destruct (run_title sanitize_filename urljoin os_path_join
                url key folder st_pre raw srcs Hv)
      as (st & Hrun & _ & Hc & Hinv').
    exists ev_pre, st_pre, st. repeat split; try assumption.
    now apply run_app with (st1 := st_pre).
Qed.

Lemma heading_texts_app l1 l2 :
  heading_texts (l1 ++ l2) = (heading_texts l1 ++ heading_texts l2)%list.
Proof.
  induction l1 as [|[t|s] l1 IH]; simpl;
    [reflexivity|now rewrite IH|apply IH].
Qed.

(** C2: when the same heading text occurs twice, each occurrence makes
    the same folder (that of the safe name) and numbers its images
    from 1, so both occurrences write the same [page_NN.jpg] paths;
    and the rows hold the safe name once. *)
Theorem repeated_heading_restarts_pages
    (url key folder : string) (pre mid post : list node) (raw : string)
    (srcs1 srcs2 : list (option string)) :
  valid_heading sanitize_filename raw ->
  let title_folder := os_path_join folder (safe raw) in
  let occurrence srcs :=
    Makedirs title_folder
      :: pages url title_folder
           (zip (seq 1 (length (usable_srcs srcs))) (usable_srcs srcs)) in
  exists ev_pre ev_mid ev_post st,
    run url key folder scrape_init
        (pre ++ (H2 raw :: map Img srcs1)
             ++ mid ++ (H2 raw :: map Img srcs2) ++ post)%list
    = ((ev_pre ++ occurrence srcs1 ++ ev_mid ++ occurrence srcs2
               ++ ev_post)%list,
       Returned st)
    /\ length (List.filter (fun r => String.eqb (title_safe r) (safe raw))
                           (titles_for_doctor st)) = 1.
Proof.
  intros Hv title_folder occurrence.
  destruct (run_returns sanitize_filename urljoin os_path_join
              url key folder pre scrape_init scrape_init_inv)
    as (ev_pre & st0 & Hpre & Hinv0).
  destruct (run_title sanitize_filename urljoin os_path_join
              url key folder st0 raw srcs1 Hv)
    as (st1 & Hrun1 & _ & _ & Hinv1).
  destruct (run_returns sanitize_filename urljoin os_path_join
              url key folder mid st1 Hinv1)
    as (ev_mid & st2 & Hmid & Hinv2).
  destruct (run_title sanitize_filename urljoin os_path_join
              url key folder st2 raw srcs2 Hv)
    as (st3 & Hrun2 & _ & _ & Hinv3).
  destruct (run_returns sanitize_filename urljoin os_path_join
              url key folder post st3 Hinv3)
    as (ev_post & st4 & Hpost & Hinv4).
  pose proof (run_app _ _ _ _ _ _ _ _ _ _ _ _ _ Hrun2 Hpost) as H24.
  pose proof (run_app _ _ _ _ _ _ _ _ _ _ _ _ _ Hmid H24) as H14.
  pose proof (run_app _ _ _ _ _ _ _ _ _ _ _ _ _ Hrun1 H14) as H04.
  pose proof (run_app _ _ _ _ _ _ _ _ _ _ _ _ _ Hpre H04) as Hall.
  exists ev_pre, ev_mid, ev_post, st4. split; [exact Hall|].
  destruct (run_rows sanitize_filename urljoin os_path_join url key folder
              (pre ++ (H2 raw :: map Img srcs1)
                   ++ mid ++ (H2 raw :: map Img srcs2) ++ post)%list
              scrape_init scrape_init_inv) as (ev & st' & Hrun & Hrows).
  rewrite Hall in Hrun. inversion Hrun; subst st'. clear Hrun.
  simpl in Hrows. rewrite Hrows.
  apply filter_one.
  - rewrite rows_from_safe. apply first_seen_NoDup.
  - rewrite rows_from_safe, first_seen_elem. split; [|set_solver].
    apply list_elem_of_fmap. exists raw. split; [reflexivity|].
    apply list_elem_of_In, filter_In. split.
    + apply list_elem_of_In. rewrite heading_texts_app.
      apply elem_of_app. right. simpl. apply list_elem_of_here.
    + now apply valid_heading_b_true.
Qed.

(** C3: the rows of a section are one per distinct non-empty safe name
    of its headings, in first-seen order; a row carries the lower-cased
    stripped text of the first heading that has its safe name. *)
Theorem one_row_per_safe_name
    (w : world) (url key root : string) (nodes : list node) :
  sanitize_filename "" = "" ->
  page_nodes w url = Some nodes ->
  let safe_names :=
    distinct (List.filter nonempty (map safe (heading_texts nodes))) in
  exists ev rows,
    scrape w url key root = (ev, Returned rows)
    /\ map title_safe rows = safe_names
    /\ length rows = length safe_names
    /\ NoDup (map title_safe rows)
    /\ (forall s, s ∈ map title_safe rows
                  <-> s <> "" /\ s ∈ map safe (heading_texts nodes))
    /\ (forall r, r ∈ rows ->
          row_doctor r = key
          /\ exists pre raw post,
               heading_texts nodes = (pre ++ raw :: post)%list
               /\ safe raw = title_safe r
               /\ (forall p, p ∈ pre -> safe p <> title_safe r)
               /\ title_lower r = lower (strip raw)).
Proof.
  intros Hempty Hpage safe_names.
  destruct (run_rows sanitize_filename urljoin os_path_join url key
              (os_path_join root key) nodes scrape_init scrape_init_inv)
    as (ev & st & Hrun & Hrows).
  simpl in Hrows.
  exists (Makedirs (os_path_join root key) :: HttpGet url :: ev),
         (titles_for_doctor st).
  split; [now apply scrape_section_ok with (nodes := nodes)|].
  assert (Hsafe : map title_safe (titles_for_doctor st) = safe_names).
  { rewrite Hrows, rows_from_safe. unfold safe_names, distinct.
    now rewrite filter_valid. }
  split; [exact Hsafe|]. split; [now rewrite <- Hsafe, length_map|].
  split; [rewrite Hsafe; apply distinct_NoDup|].
  split.
  - intros s. rewrite Hsafe. unfold safe_names.
    rewrite distinct_elem, list_elem_of_In, filter_In, <- list_elem_of_In.
    unfold nonempty. rewrite negb_true_iff, is_empty_false. tauto.
  - intros r Hr. rewrite Hrows in Hr.
    destruct (rows_from_first _ _ _ _ _ Hr)
      as (Hk & _ & pre & raw & post & Ht & Hv & Hs & Hfirst & Hl).
    split; [exact Hk|]. exists pre, raw, post. repeat split; try assumption.
    intros p Hp E.
    destruct (valid_heading_b sanitize_filename p) eqn:Hvp.
    + now apply (Hfirst p Hp Hvp).
    + rewrite valid_iff_nonempty in Hvp, Hv by assumption.
      rewrite E, <- Hs in Hvp. congruence.
Qed.

End SectionTheorems.

(** C1: on the page [A, u1, u2, (empty heading), u3, B, u4] the section
    gives the two rows of A and B in that order; u1 and u2 are saved as
    page_01 and page_02 in the folder of A; the empty heading leaves no
    current title, so u3 is dropped; and u4 is saved as page_01 in the
    folder of B. *)
Theorem two_titles_with_orphan
    (urljoin os_path_join : string -> string -> string)
    (w : world) (url key root : string) (u1 u2 u3 u4 : string) :
  u1 <> "" -> u2 <> "" -> u4 <> "" ->
  page_nodes w url
  = Some [H2 "A"; Img (Some u1); Img (Some u2); H2 "";
          Img (Some u3); H2 "B"; Img (Some u4)] ->
  let doctor_folder := os_path_join root key in
  let folder_a := os_path_join doctor_folder "a" in
  let folder_b := os_path_join doctor_folder "b" in
  scrape_doctor_section sanitize_filename_model urljoin os_path_join
                        w url key root
  = ([Makedirs doctor_folder; HttpGet url;
      Makedirs folder_a;
      DownloadImage (urljoin url u1) (os_path_join folder_a "page_01.jpg");
      Sleep;
      DownloadImage (urljoin url u2) (os_path_join folder_a "page_02.jpg");
      Sleep;
      Makedirs folder_b;
      DownloadImage (urljoin url u4) (os_path_join folder_b "page_01.jpg");
      Sleep],
     Returned [Row key "a" "a"; Row key "b" "b"])
  /\ outcome_map current_title
       (snd (scrape_nodes sanitize_filename_model urljoin os_path_join
               url key doctor_folder scrape_init
               [H2 "A"; Img (Some u1); Img (Some u2); H2 ""]))
     = Returned None.
Proof.
  intros H1 H2 H4 Hpage doctor_folder folder_a folder_b.
  unfold scrape_doctor_section. rewrite Hpage.
  destruct u1 as [|c1 r1]; [congruence|].
  destruct u2 as [|c2 r2]; [congruence|].
  destruct u4 as [|c4 r4]; [congruence|].
  split; vm_compute; reflexivity.
Qed.

Lemma two_titles_with_orphan_witness :
  scrape_doctor_section sanitize_filename_model urljoin_absolute posix_join
    world_two_titles "http://example.org/first/" "first_doctor" "/root"
  = ([Makedirs "/root/first_doctor"; HttpGet "http://example.org/first/";
      Makedirs "/root/first_doctor/a";
      DownloadImage "1.jpg" "/root/first_doctor/a/page_01.jpg"; Sleep;
      DownloadImage "2.jpg" "/root/first_doctor/a/page_02.jpg"; Sleep;
      Makedirs "/root/first_doctor/b";
      DownloadImage "4.jpg" "/root/first_doctor/b/page_01.jpg"; Sleep],
     Returned [Row "first_doctor" "a" "a"; Row "first_doctor" "b" "b"]).
Proof.
  apply (two_titles_with_orphan urljoin_absolute posix_join world_two_titles
           "http://example.org/first/" "first_doctor" "/root"
           "1.jpg" "2.jpg" "3.jpg" "4.jpg");
    [discriminate|discriminate|discriminate|reflexivity].
Defined.

(** ** The manifest and [main] *)

Lemma csv_rows_app l1 : forall counter l2,
  csv_rows counter (l1 ++ l2)%list
  = (csv_rows counter l1 ++ csv_rows (counter + length l1) l2)%list.
Proof.
  induction l1 as [|r l1 IH]; intros counter l2; simpl.
  - now rewrite Nat.add_0_r.
  - rewrite IH. do 3 f_equal. lia.
Qed.

Lemma csv_rows_index l : forall counter,
  map index_of (csv_rows counter l) = map Some (seq (counter + 1) (length l)).
Proof.
  induction l as [|r l IH]; intros counter; simpl; [reflexivity|].
  rewrite IH. now replace (counter + 1 + 1) with (S (counter + 1)) by lia.
Qed.

Lemma csv_rows_imap l : forall counter,
  csv_rows counter l
  = imap (fun i r => [CInt (counter + i + 1); CStr (row_doctor r);
                      CStr (title_lower r); CStr (title_safe r)]) l.
Proof.
  induction l as [|x l IH]; intros counter; simpl; [reflexivity|].
  rewrite Nat.add_0_r. f_equal. rewrite IH. apply imap_ext.
  intros i r _. simpl. do 2 f_equal. lia.
Qed.

(** C7: [create_csv] numbers the rows it is given 1..N by their position
    in the list (the counter runs while the file is written: a row of
    [all_rows] carries no number, and the rows of a later section
    continue the numbering of the earlier ones). *)
Theorem csv_ordinals_by_position (all_rows : list row) (csv_path : string) :
  create_csv all_rows csv_path
  = ([WriteCsv csv_path
        ([CStr "index"; CStr "doctor"; CStr "title_lower"; CStr "title_safe"]
           :: csv_rows 0 all_rows)],
     Returned tt)
  /\ map index_of (csv_rows 0 all_rows)
     = map Some (seq 1 (length all_rows))
  /\ csv_rows 0 all_rows
     = imap (fun i r => [CInt (i + 1); CStr (row_doctor r);
                         CStr (title_lower r); CStr (title_safe r)])
            all_rows
  /\ (forall rows1 rows2,
         csv_rows 0 (rows1 ++ rows2)%list
         = (csv_rows 0 rows1 ++ csv_rows (length rows1) rows2)%list).
Proof.
  split; [reflexivity|]. split; [apply (csv_rows_index all_rows 0)|]. split.
  - apply (csv_rows_imap all_rows 0).
  - intros rows1 rows2. apply (csv_rows_app rows1 0 rows2).
Qed.

Section MainFacts.
Import PyStr PyStrFacts.

Variable sanitize_filename : string -> string.
Variable urljoin : string -> string -> string.
Variable os_path_join : string -> string -> string.

Local Abbreviation step :=
  (process_node sanitize_filename urljoin os_path_join).
Local Abbreviation run :=
  (scrape_nodes sanitize_filename urljoin os_path_join).
Local Abbreviation scrape :=
  (scrape_doctor_section sanitize_filename urljoin os_path_join).
Local Abbreviation section :=
  (main_section sanitize_filename urljoin os_path_join).
Local Abbreviation choose := choose_doctor_keys.
Local Abbreviation root_of w :=
  (os_path_join (os_path_join (home_dir w) "Desktop") "comic_images").

Lemma step_events url key folder st n ev r :
  step url key folder st n = (ev, r) ->
  Forall (fun e => is_loop_event e = true) ev.
Proof.
  unfold process_node. intros H.
  repeat match type of H with
         | context [match ?x with _ => _ end] => destruct x
         end;
    inversion H; subst; repeat constructor.
Qed.

Lemma run_events url key folder nodes : forall st ev r,
  run url key folder st nodes = (ev, r) ->
  Forall (fun e => is_loop_event e = true) ev.
Proof.
  induction nodes as [|n rest IH]; intros st ev r H.
  - inversion H. constructor.
  - unfold scrape_nodes in *. simpl in H. unfold bind in H.
    destruct (step url key folder st n) as [l [st1|e]] eqn:Hstep.
    + destruct (for_each (step url key folder) st1 rest) as [l' r'] eqn:Hrest.
      inversion H; subst. apply Forall_app. split.
      * eapply step_events, Hstep.
      * eapply IH, Hrest.
    + inversion H; subst. eapply step_events, Hstep.
Qed.

(** What a section logs: its folder, the request, then loop events. *)
Lemma scrape_events w url key root ev r :
  scrape w url key root = (ev, r) ->
  exists ev', ev = Makedirs (os_path_join root key) :: HttpGet url :: ev'
              /\ Forall (fun e => is_loop_event e = true) ev'.
Proof.
  intros H. destruct (page_nodes w url) as [nodes|] eqn:Hp.
  - destruct (run url key (os_path_join root key) scrape_init nodes)
      as [l [st|e]] eqn:Hrun.
    + rewrite (scrape_section_ok _ _ _ _ _ _ _ _ _ _ Hp Hrun) in H.
      inversion H; subst. eexists. split; [reflexivity|].
      eapply run_events, Hrun.
    + rewrite (scrape_section_raised _ _ _ _ _ _ _ _ _ _ Hp Hrun) in H.
      inversion H; subst. eexists. split; [reflexivity|].
      eapply run_events, Hrun.
  - rewrite (scrape_section_fail _ _ _ _ _ _ _ Hp) in H.
    inversion H; subst. exists []. split; [reflexivity|constructor].
Qed.

Lemma section_events w root rows key ev r :
  section w root rows key = (ev, r) ->
  Forall (fun e => is_manifest_write e = false) ev
  /\ (forall u, HttpGet u ∈ ev -> dict_get DOCTOR_SECTIONS key = Some u).
Proof.
  unfold main_section. intros H.
  destruct (dict_get DOCTOR_SECTIONS key) as [url|].
  - destruct (is_empty url).
    + inversion H; subst. split; [constructor|].
      intros u Hu. now apply elem_of_nil in Hu.
    + unfold bind in H.
      destruct (scrape w url key root) as [l [titles|e]] eqn:Hs.
      * cbn in H. inversion H; subst. rewrite app_nil_r.
        destruct (scrape_events _ _ _ _ _ _ Hs) as (ev' & -> & Hev'). split.
        -- do 2 (constructor; [reflexivity|]).
           eapply Forall_impl; [exact Hev'|]. now intros [] He.
        -- intros u Hu. apply elem_of_cons in Hu as [Hu|Hu]; [discriminate|].
           apply elem_of_cons in Hu as [Hu|Hu]; [congruence|].
           rewrite Forall_forall in Hev'. specialize (Hev' _ Hu).
           discriminate.
      * inversion H; subst.
        destruct (scrape_events _ _ _ _ _ _ Hs) as (ev' & -> & Hev'). split.
        -- do 2 (constructor; [reflexivity|]).
           eapply Forall_impl; [exact Hev'|]. now intros [] He.
        -- intros u Hu. apply elem_of_cons in Hu as [Hu|Hu]; [discriminate|].
           apply elem_of_cons in Hu as [Hu|Hu]; [congruence|].
           rewrite Forall_forall in Hev'. specialize (Hev' _ Hu).
           discriminate.
  - inversion H; subst. split; [constructor|].
    intros u Hu. now apply elem_of_nil in Hu.
Qed.

Lemma sections_events w root keys : forall rows ev r,
  for_each (section w root) rows keys = (ev, r) ->
  Forall (fun e => is_manifest_write e = false) ev
  /\ (forall u, HttpGet u ∈ ev ->
                exists k, k ∈ keys /\ dict_get DOCTOR_SECTIONS k = Some u).
Proof.
  induction keys as [|k rest IH]; intros rows ev r H.
  - inversion H; subst. split; [constructor|].
    intros u Hu. now apply elem_of_nil in Hu.
  - simpl in H. unfold bind in H.
    destruct (section w root rows k) as [l [rows1|e]] eqn:Hk.
    + destruct (for_each (section w root) rows1 rest) as [l' r'] eqn:Hrest.
      inversion H; subst.
      destruct (section_events _ _ _ _ _ _ Hk) as [Hw Hg].
      destruct (IH _ _ _ Hrest) as [Hw' Hg']. split.
      * apply Forall_app. now split.
      * intros u Hu. apply elem_of_app in Hu as [Hu|Hu].
        -- exists k. split; [apply list_elem_of_here|now apply Hg].
        -- destruct (Hg' u Hu) as (k' & Hk' & Hd).
           exists k'. split; [now apply list_elem_of_further|exact Hd].
    + inversion H; subst.
      destruct (section_events _ _ _ _ _ _ Hk) as [Hw Hg]. split; [exact Hw|].
      intros u Hu. exists k. split; [apply list_elem_of_here|now apply Hg].
Qed.

(** The four ways [main] ends. *)
Lemma main_aborted w :
  choose w = [] ->
  main sanitize_filename urljoin os_path_join w
  = ([Makedirs (root_of w)], Returned tt).
Proof. intros H. unfold main, get_download_root. now rewrite H. Qed.

Lemma main_sections w ev r :
  choose w <> [] ->
  for_each (section w (root_of w)) [] (choose w) = (ev, r) ->
  main sanitize_filename urljoin os_path_join w
  = match r with
    | Raised e => (Makedirs (root_of w) :: ev, Raised e)
    | Returned [] => (Makedirs (root_of w) :: ev, Returned tt)
    | Returned (x :: rows) =>
        (Makedirs (root_of w)
           :: ev ++ [WriteCsv (os_path_join (root_of w) "titles_list.csv")
                              (csv_table (x :: rows));
                     WritePdf (os_path_join (root_of w) "titles_list.pdf")
                              (pdf_table (x :: rows))],
         Returned tt)
    end.
Proof.
  intros Hne Hfor. unfold main, get_download_root.
  destruct (choose w) as [|k keys] eqn:Hk; [congruence|].
  unfold bind at 1 2, emit, ret. cbn [app].
  unfold bind at 1. rewrite Hfor.
  destruct r as [[|x rows]|e]; cbn; [|reflexivity|reflexivity].
  now rewrite app_nil_r.
Qed.

End MainFacts.

Lemma options_NoDup : NoDup (map fst DOCTOR_SECTIONS).
Proof. apply (bool_decide_unpack _). vm_compute. exact I. Qed.

Lemma choose_NoDup w : NoDup (choose_doctor_keys w).
Proof.
  unfold choose_doctor_keys.
  destruct (PyStr.parse_int _) as [num|]; [|constructor].
  destruct (_ =? _)%Z; [apply options_NoDup|].
  destruct (_ && _); [|constructor].
  destruct (_ !! _); [|constructor].
  apply NoDup_singleton.
Qed.

Lemma choose_invalid w : invalid_choice w -> choose_doctor_keys w = [].
Proof.
  unfold invalid_choice, choose_doctor_keys.
  intros [->|(num & -> & Hnum)]; [reflexivity|].
  change (Z.of_nat (length (map fst DOCTOR_SECTIONS))) with 4%Z.
  destruct (Z.eqb_spec num (4 + 1)) as [E|E]; [lia|].
  destruct (Z.leb_spec 1 num), (Z.leb_spec num 4); simpl; try reflexivity.
  lia.
Qed.

Lemma dict_get_sections k u :
  dict_get DOCTOR_SECTIONS k = Some u ->
  (k, u) ∈ DOCTOR_SECTIONS.
Proof.
  generalize DOCTOR_SECTIONS. intros d.
  induction d as [|[k' v] d IH]; simpl; [discriminate|].
  destruct (String.eqb_spec k' k) as [->|Hne].
  - intros [= ->]. apply list_elem_of_here.
  - intros H. apply list_elem_of_further, IH, H.
Qed.

Lemma sections_cases k u :
  (k, u) ∈ DOCTOR_SECTIONS ->
  PyStr.is_empty u = false
  /\ forall k', (k', u) ∈ DOCTOR_SECTIONS -> k' = k.
Proof.
  unfold DOCTOR_SECTIONS. intros H.
  repeat (apply elem_of_cons in H as [H|H];
          [inversion H; subst; clear H; split; [reflexivity|];
           intros k' Hk';
           repeat (apply elem_of_cons in Hk' as [Hk'|Hk'];
                   [inversion Hk'; subst; reflexivity || discriminate|]);
           now apply elem_of_nil in Hk'|]).
  now apply elem_of_nil in H.
Qed.

Section MainTheorems.
Import PyStr PyStrFacts.

Variable sanitize_filename : string -> string.
Variable urljoin : string -> string -> string.
Variable os_path_join : string -> string -> string.

Local Abbreviation section :=
  (main_section sanitize_filename urljoin os_path_join).
Local Abbreviation root_of w :=
  (os_path_join (os_path_join (home_dir w) "Desktop") "comic_images").
Local Abbreviation program :=
  (main sanitize_filename urljoin os_path_join).

Lemma section_fetch_fails w root rows k url :
  dict_get DOCTOR_SECTIONS k = Some url ->
  page_nodes w url = None ->
  section w root rows k
  = ([Makedirs (os_path_join root k); HttpGet url], Raised RequestException).
Proof.
  intros Hd Hp. unfold main_section. rewrite Hd.
  destruct (sections_cases k url (dict_get_sections _ _ Hd)) as [-> _].
  now rewrite (scrape_section_fail _ _ _ _ _ _ _ Hp).
Qed.

(** C5, amended: when the request for the page of a selected section
    fails, [main] ends with that exception right after the request:
    the sections before it have been scraped, no later section is
    requested, and neither the CSV nor the PDF is written. *)
Theorem failed_page_fetch_ends_run
    (w : world) (before after : list string) (k url : string)
    (ev1 : list event) (rows1 : list row) :
  choose_doctor_keys w = (before ++ k :: after)%list ->
  for_each (section w (root_of w)) [] before = (ev1, Returned rows1) ->
  dict_get DOCTOR_SECTIONS k = Some url ->
  page_nodes w url = None ->
  let events :=
    Makedirs (root_of w)
      :: (ev1 ++ [Makedirs (os_path_join (root_of w) k); HttpGet url])%list in
  program w = (events, Raised RequestException)
  /\ Forall (fun e => is_manifest_write e = false) events
  /\ (forall k' url', k' ∈ after ->
                      dict_get DOCTOR_SECTIONS k' = Some url' ->
                      HttpGet url' ∉ events).
Proof.
  intros Hkeys Hbefore Hd Hp events.
  assert (Hfor : for_each (section w (root_of w)) [] (choose_doctor_keys w)
                 = ((ev1 ++ [Makedirs (os_path_join (root_of w) k);
                             HttpGet url])%list,
                    Raised RequestException)).
  { rewrite Hkeys, for_each_app.
    apply bind_returned with (a := rows1); [exact Hbefore|].
    cbn [for_each]. apply bind_raised.
    now apply section_fetch_fails. }
  split; [|split].
  - assert (Hne : choose_doctor_keys w <> [])
      by (rewrite Hkeys; now destruct before).
    now rewrite (main_sections _ _ _ w _ _ Hne Hfor).
  - constructor; [reflexivity|]. apply Forall_app. split.
    + eapply sections_events, Hbefore.
    + repeat constructor.
  - intros k' url' Hk' Hd' Hin.
    pose proof (choose_NoDup w) as Hnd. rewrite Hkeys in Hnd.
    apply NoDup_app in Hnd as (_ & Hdisj & Hnd').
    apply NoDup_cons in Hnd' as [Hk _].
    destruct (sections_cases k' url' (dict_get_sections _ _ Hd')) as [_ Hinj].
    unfold events in Hin.
    apply elem_of_cons in Hin as [Hin|Hin]; [discriminate|].
    apply elem_of_app in Hin as [Hin|Hin].
    + destruct (sections_events _ _ _ _ _ _ _ _ _ Hbefore) as [_ Hg].
      destruct (Hg _ Hin) as (k1 & Hk1 & Hd1).
      rewrite (Hinj k1 (dict_get_sections _ _ Hd1)) in Hk1.
      apply (Hdisj k' Hk1). now apply list_elem_of_further.
    + apply elem_of_cons in Hin as [Hin|Hin]; [discriminate|].
      apply elem_of_cons in Hin as [Hin|Hin];
        [|now apply elem_of_nil in Hin].
      inversion Hin; subst url'.
      rewrite <- (Hinj k (dict_get_sections _ _ Hd)) in Hk'. contradiction.
Qed.

(** C6, amended: on a line that is not a number, or a number outside
    1..5, [main] makes sure the download folder exists and returns:
    no section or title folder is made, nothing is requested, and
    neither the CSV nor the PDF is written. *)
Theorem invalid_choice_only_makes_download_root (w : world) :
  invalid_choice w ->
  program w = ([Makedirs (root_of w)], Returned tt).
Proof. intros H. apply main_aborted, choose_invalid, H. Qed.

(** C8: when the selected sections have been processed and gave no row,
    [main] returns normally and has written neither the CSV nor the
    PDF. *)
Theorem no_rows_no_manifest (w : world) (ev : list event) :
  for_each (section w (root_of w)) [] (choose_doctor_keys w)
  = (ev, Returned []) ->
  program w = (Makedirs (root_of w) :: ev, Returned tt)
  /\ Forall (fun e => is_manifest_write e = false)
            (Makedirs (root_of w) :: ev).
Proof.
  intros Hfor. split.
  - destruct (choose_doctor_keys w) as [|k keys] eqn:Hk.
    + inversion Hfor; subst. now apply main_aborted.
    + rewrite <- Hk in Hfor.
      assert (Hne : choose_doctor_keys w <> []) by now rewrite Hk.
      now rewrite (main_sections _ _ _ w _ _ Hne Hfor).
  - constructor; [reflexivity|]. eapply sections_events, Hfor.
Qed.

End MainTheorems.

(** ** Closed instances *)

Lemma valid_heading_A : valid_heading sanitize_filename_model "A".
Proof. split; vm_compute; discriminate. Qed.

Lemma current_title_has_counter_witness :
  exists st,
    snd (scrape_nodes sanitize_filename_model urljoin_absolute posix_join
           "http://example.org/" "first_doctor" "/root/first_doctor"
           scrape_init
           ([Img (Some "0.jpg")]
              ++ H2 "A" :: map Img [Some "1.jpg"; None; Some "2.jpg"])%list)
    = Returned st
    /\ image_counters st !! "A" = Some 2.
Proof.
  destruct (current_title_has_counter sanitize_filename_model urljoin_absolute
              posix_join "http://example.org/" "first_doctor"
              "/root/first_doctor") as [_ H].
  destruct (H [Img (Some "0.jpg")] "A" [Some "1.jpg"; None; Some "2.jpg"]
              valid_heading_A)
    as (ev_pre & st_pre & st & _ & _ & Hrun & Hc & _).
  exists st. rewrite Hrun. split; [reflexivity|exact Hc].
Defined.

Lemma repeated_heading_restarts_pages_witness :
  exists ev_pre ev_mid ev_post st,
    scrape_nodes sanitize_filename_model urljoin_absolute posix_join
      "http://example.org/" "first_doctor" "/root/first_doctor" scrape_init
      ([Img (Some "0.jpg")]
         ++ (H2 "A" :: map Img [Some "1.jpg"; Some "2.jpg"])
         ++ [H2 "B"; Img (Some "3.jpg")]
         ++ (H2 "A" :: map Img [Some "4.jpg"])
         ++ [H2 "C"])%list
    = ((ev_pre
          ++ [Makedirs "/root/first_doctor/a";
              DownloadImage "1.jpg" "/root/first_doctor/a/page_01.jpg"; Sleep;
              DownloadImage "2.jpg" "/root/first_doctor/a/page_02.jpg"; Sleep]
          ++ ev_mid
          ++ [Makedirs "/root/first_doctor/a";
              DownloadImage "4.jpg" "/root/first_doctor/a/page_01.jpg"; Sleep]
          ++ ev_post)%list,
       Returned st)
    /\ length (List.filter (fun r => String.eqb (title_safe r) "a")
                           (titles_for_doctor st)) = 1.
Proof.
  exact (repeated_heading_restarts_pages sanitize_filename_model
           urljoin_absolute posix_join
           "http://example.org/" "first_doctor" "/root/first_doctor"
           [Img (Some "0.jpg")] [H2 "B"; Img (Some "3.jpg")] [H2 "C"] "A"
           [Some "1.jpg"; Some "2.jpg"] [Some "4.jpg"] valid_heading_A).
Defined.

Lemma one_row_per_safe_name_witness :
  exists ev rows,
    scrape_doctor_section sanitize_filename_model urljoin_absolute posix_join
      world_two_titles "http://example.org/first/" "first_doctor" "/root"
    = (ev, Returned rows)
    /\ map title_safe rows = ["a"; "b"].
Proof.
  destruct (one_row_per_safe_name sanitize_filename_model urljoin_absolute
              posix_join world_two_titles "http://example.org/first/"
              "first_doctor" "/root" _ eq_refl eq_refl)
    as (ev & rows & Hrun & Hsafe & _).
  exists ev, rows. split; [exact Hrun|exact Hsafe].
Defined.

(** C5, as stated, fails: "all" is selected and the request for the
    second section fails; the third and the fourth section, whose pages
    are there, are never requested, and the row of the first section is
    not written to any CSV or PDF. *)
Lemma fetch_failure_stops_every_section :
  choose_doctor_keys world_second_fails
  = ["first_doctor"; "second_doctor"; "third_doctor"; "fourth_doctor"]
  /\ page_nodes world_second_fails
       "https://classicdoctorwhocomics.wordpress.com/third-doctor-comics/"
     = Some [H2 "A"]
  /\ main_posix world_second_fails
     = ([Makedirs "/home/user/Desktop/comic_images";
         Makedirs "/home/user/Desktop/comic_images/first_doctor";
         HttpGet "https://classicdoctorwhocomics.wordpress.com/first-doctor-comics/";
         Makedirs "/home/user/Desktop/comic_images/first_doctor/a";
         Makedirs "/home/user/Desktop/comic_images/second_doctor";
         HttpGet "https://classicdoctorwhocomics.wordpress.com/second-doctor-comics/"],
        Raised RequestException).
Proof. repeat split. Qed.

Lemma failed_page_fetch_ends_run_witness :
  main_posix world_second_fails
  = (Makedirs "/home/user/Desktop/comic_images"
       :: ([Makedirs "/home/user/Desktop/comic_images/first_doctor";
            HttpGet "https://classicdoctorwhocomics.wordpress.com/first-doctor-comics/";
            Makedirs "/home/user/Desktop/comic_images/first_doctor/a"]
             ++ [Makedirs "/home/user/Desktop/comic_images/second_doctor";
                 HttpGet "https://classicdoctorwhocomics.wordpress.com/second-doctor-comics/"])%list,
     Raised RequestException).
Proof.
  destruct (failed_page_fetch_ends_run sanitize_filename_model
              urljoin_absolute posix_join world_second_fails
              ["first_doctor"] ["third_doctor"; "fourth_doctor"]
              "second_doctor"
              "https://classicdoctorwhocomics.wordpress.com/second-doctor-comics/"
              [Makedirs "/home/user/Desktop/comic_images/first_doctor";
               HttpGet "https://classicdoctorwhocomics.wordpress.com/first-doctor-comics/";
               Makedirs "/home/user/Desktop/comic_images/first_doctor/a"]
              [Row "first_doctor" "a" "a"]
              eq_refl eq_refl eq_refl eq_refl) as [H _].
  exact H.
Defined.

(** C6, as stated, fails: a line that is not a number still has the
    download folder made before the selection is read. *)
Lemma bad_choice_still_makes_download_root :
  invalid_choice world_bad_choice
  /\ main_posix world_bad_choice
     = ([Makedirs "/home/user/Desktop/comic_images"], Returned tt)
  /\ fst (main_posix world_bad_choice) <> [].
Proof. split; [now left|]. split; [reflexivity|discriminate]. Qed.

Lemma invalid_choice_only_makes_download_root_witness :
  main_posix world_bad_choice
  = ([Makedirs (posix_join (posix_join "/home/user" "Desktop") "comic_images")],
     Returned tt).
Proof.
  apply (invalid_choice_only_makes_download_root sanitize_filename_model
           urljoin_absolute posix_join world_bad_choice).
  left. reflexivity.
Defined.

Lemma no_rows_no_manifest_witness :
  main_posix world_no_titles
  = ([Makedirs "/home/user/Desktop/comic_images";
      Makedirs "/home/user/Desktop/comic_images/first_doctor";
      HttpGet "https://classicdoctorwhocomics.wordpress.com/first-doctor-comics/"],
     Returned tt).
Proof.
  destruct (no_rows_no_manifest sanitize_filename_model urljoin_absolute
              posix_join world_no_titles
              [Makedirs "/home/user/Desktop/comic_images/first_doctor";
               HttpGet "https://classicdoctorwhocomics.wordpress.com/first-doctor-comics/"]
              eq_refl) as [H _].
  exact H.
Defined.

(** The page [A, 1.jpg, A, 2.jpg]: the second image takes the path of
    the first. *)
Example repeated_title_overwrites :
  fst (scrape_nodes sanitize_filename_model urljoin_absolute posix_join
         "http://example.org/" "k" "/root/k" scrape_init
         [H2 "A"; Img (Some "1.jpg"); H2 " A "; Img (Some "2.jpg")])
  = [Makedirs "/root/k/a"; DownloadImage "1.jpg" "/root/k/a/page_01.jpg"; Sleep;
     Makedirs "/root/k/a"; DownloadImage "2.jpg" "/root/k/a/page_01.jpg"; Sleep].
Proof. reflexivity. Qed.

Example sanitize_ex :
  sanitize "  Doctor: Who?  " = "doctor_who" /\ sanitize " A/B  c " = "ab__c".
Proof. split; reflexivity. Qed.

Example strip_ex :
  PyStr.strip "  a b  " = "a b" /\ PyStr.strip "   " = "".
Proof. split; reflexivity. Qed.

Example format_02d_ex :
  PyStr.format_02d 0 = "00" /\ PyStr.format_02d 7 = "07"
  /\ PyStr.format_02d 12 = "12" /\ PyStr.format_02d 123 = "123".
Proof. repeat split. Qed.

Example parse_int_ex :
  PyStr.parse_int " 5 " = Some 5%Z /\ PyStr.parse_int "5_0" = Some 50%Z
  /\ PyStr.parse_int "-0_1" = Some (-1)%Z /\ PyStr.parse_int "+5" = Some 5%Z
  /\ PyStr.parse_int "_5" = None /\ PyStr.parse_int "5_" = None
  /\ PyStr.parse_int "5__0" = None /\ PyStr.parse_int "+-5" = None
  /\ PyStr.parse_int "+ 5" = None /\ PyStr.parse_int "" = None
  /\ PyStr.parse_int "+" = None /\ PyStr.parse_int "5.0" = None
  /\ PyStr.parse_int (String (ascii_of_nat 28) "5") = None
  /\ PyStr.parse_int (String (ascii_of_nat 160) "5") = Some 5%Z.
Proof. repeat split. Qed.

Example posix_join_ex :
  posix_join "/home/user" "Desktop" = "/home/user/Desktop"
  /\ posix_join "a/" "b" = "a/b" /\ posix_join "a" "/b" = "/b"
  /\ posix_join "" "b" = "b".
Proof. repeat split. Qed.

Example choose_doctor_keys_ex :
  choose_doctor_keys (World " 2 " "" (fun _ => None)) = ["second_doctor"]
  /\ choose_doctor_keys (World "5" "" (fun _ => None))
     = ["first_doctor"; "second_doctor"; "third_doctor"; "fourth_doctor"]
  /\ choose_doctor_keys (World "0" "" (fun _ => None)) = []
  /\ choose_doctor_keys (World "6" "" (fun _ => None)) = []
  /\ choose_doctor_keys (World "all" "" (fun _ => None)) = [].
Proof. repeat split. Qed.

(** * Further properties of the code *)

(** ** [make_safe_name] *)

(** X1: whatever the sanitizer returns, a safe name has no space and no
    upper-case letter. *)
Theorem safe_name_no_space_no_capital
    (sanitize_filename : string -> string) (name : string) :
  PyStr.forallb lower_no_space (make_safe_name sanitize_filename name) = true.
Proof.
  unfold make_safe_name.
  apply PyStrFacts.forallb_lower_replace with (p := fun _ => true).
  - intros c _. apply lower_replace_no_space.
  - apply forallb_true.
Qed.

(** X2: the steps that follow the sanitizer bring no illegal character
    back: when the sanitizer returns legal characters only, so does
    [make_safe_name]. *)
Theorem safe_name_stays_legal
    (sanitize_filename : string -> string) (name : string) :
  (forall s, PyStr.forallb legal (sanitize_filename s) = true) ->
  PyStr.forallb legal (make_safe_name sanitize_filename name) = true.
Proof.
  intros Hsf. unfold make_safe_name.
  apply PyStrFacts.forallb_lower_replace with (p := legal).
  - apply lower_replace_legal.
  - apply Hsf.
Qed.

Lemma safe_name_stays_legal_witness :
  PyStr.forallb legal (sanitize "Doctor Who: The Daleks / 1") = true.
Proof.
  apply (safe_name_stays_legal sanitize_filename_model
           "Doctor Who: The Daleks / 1").
  intros s. apply PyStrFacts.forallb_filter_self.
Defined.

(** ** [create_pdf] and [create_csv] *)

Lemma pdf_rows_csv_rows l : forall counter,
  pdf_rows counter l = map (map cell_str) (csv_rows counter l).
Proof.
  induction l as [|r l IH]; intros counter; simpl; [reflexivity|].
  now rewrite IH.
Qed.

Lemma length_csv_rows l : forall counter, length (csv_rows counter l) = length l.
Proof. induction l as [|r l IH]; intros counter; simpl; auto. Qed.

(** X3: the body of the PDF table is the body of the CSV table cell for
    cell, the index rendered by [str]; both tables have one line per row
    after the header. *)
Theorem pdf_body_is_csv_body (all_rows : list row) :
  tail (pdf_table all_rows) = map (map cell_str) (tail (csv_table all_rows))
  /\ length (pdf_table all_rows) = S (length all_rows)
  /\ length (csv_table all_rows) = S (length all_rows).
Proof.
  unfold pdf_table, csv_table. simpl. split; [apply pdf_rows_csv_rows|].
  rewrite pdf_rows_csv_rows, length_map, length_csv_rows. auto.
Qed.

(** ** [choose_doctor_keys] *)

Lemma options_configured k :
  k ∈ map fst DOCTOR_SECTIONS ->
  exists url, dict_get DOCTOR_SECTIONS k = Some url /\ url <> "".
Proof.
  unfold DOCTOR_SECTIONS. simpl. intros H.
  repeat (apply elem_of_cons in H as [->|H];
          [eexists; split; [reflexivity|discriminate]|]).
  now apply elem_of_nil in H.
Qed.

(** X4: the selection is empty, one configured key, or all of them;
    a number from 1 to 4 selects the key of that rank and 5 selects all;
    and every selected key has a non-empty URL, so the branch
    "No URL configured" of [main] is never taken. *)
Theorem choose_doctor_keys_cases (w : world) :
  (choose_doctor_keys w = []
   \/ choose_doctor_keys w = map fst DOCTOR_SECTIONS
   \/ exists k, choose_doctor_keys w = [k] /\ k ∈ map fst DOCTOR_SECTIONS)
  /\ (forall k, k ∈ choose_doctor_keys w ->
                exists url, dict_get DOCTOR_SECTIONS k = Some url /\ url <> "")
  /\ (PyStr.parse_int (PyStr.strip (typed_line w)) = Some 5%Z ->
      choose_doctor_keys w = map fst DOCTOR_SECTIONS)
  /\ (forall n k,
         PyStr.parse_int (PyStr.strip (typed_line w)) = Some (Z.of_nat (S n)) ->
         map fst DOCTOR_SECTIONS !! n = Some k ->
         choose_doctor_keys w = [k]).
Proof.
  assert (Hcases : choose_doctor_keys w = []
            \/ choose_doctor_keys w = map fst DOCTOR_SECTIONS
            \/ exists k, choose_doctor_keys w = [k]
                         /\ k ∈ map fst DOCTOR_SECTIONS).
  { unfold choose_doctor_keys.
    destruct (PyStr.parse_int _) as [num|]; [|now left].
    destruct (_ =? _)%Z; [now right; left|].
    destruct (_ && _); [|now left].
    destruct (_ !! _) as [k|] eqn:Hk; [|now left].
    right; right. exists k. split; [reflexivity|].
    eapply list_elem_of_lookup_2, Hk. }
  split; [exact Hcases|]. split; [|split].
  - intros k Hk. apply options_configured.
    destruct Hcases as [E|[E|(k' & E & Hk')]]; rewrite E in Hk.
    + now apply elem_of_nil in Hk.
    + exact Hk.
    + apply list_elem_of_singleton in Hk. now subst.
  - intros Hp. unfold choose_doctor_keys. now rewrite Hp.
  - intros n k Hp Hk. unfold choose_doctor_keys. rewrite Hp.
    change (Z.of_nat (length (map fst DOCTOR_SECTIONS))) with 4%Z.
    assert (Hn : n < 4).
    { apply lookup_lt_Some in Hk. exact Hk. }
    destruct (Z.eqb_spec (Z.of_nat (S n)) (4 + 1)) as [E|_]; [lia|].
    destruct (Z.leb_spec 1 (Z.of_nat (S n))); [|lia].
    destruct (Z.leb_spec (Z.of_nat (S n)) 4); [|lia].
    simpl andb. cbv iota.
    replace (Z.to_nat (Z.of_nat (S n) - 1)) with n by lia.
    now rewrite Hk.
Qed.

Lemma choose_doctor_keys_cases_witness :
  choose_doctor_keys (World " 3 " "/home/user" (fun _ => None))
  = ["third_doctor"].
Proof.
  destruct (choose_doctor_keys_cases
              (World " 3 " "/home/user" (fun _ => None))) as (_ & _ & _ & H).
  apply (H 2 "third_doctor"); reflexivity.
Defined.

(** ** The loop over the nodes *)

Lemma downloads_in_made_folders_app pj l1 : forall made l2,
  downloads_in_made_folders pj made l1 ->
  downloads_in_made_folders pj (made_after made l1) l2 ->
  downloads_in_made_folders pj made (l1 ++ l2)%list.
Proof.
  induction l1 as [|e l1 IH]; intros made l2 H1 H2; [exact H2|].
  destruct e; simpl in *; try (now apply IH).
  destruct H1 as [Hd H1]. split; [exact Hd|now apply IH].
Qed.

Lemma made_after_app l1 : forall made l2,
  made_after made (l1 ++ l2)%list = made_after (made_after made l1) l2.
Proof.
  induction l1 as [|e l1 IH]; intros made l2; [reflexivity|].
  destruct e; simpl; apply IH.
Qed.

Section LoopProperties.
Import PyStr PyStrFacts.

Variable sanitize_filename : string -> string.
Variable urljoin : string -> string -> string.
Variable os_path_join : string -> string -> string.

Local Abbreviation safe := (make_safe_name sanitize_filename).
Local Abbreviation step :=
  (process_node sanitize_filename urljoin os_path_join).
Local Abbreviation run :=
  (scrape_nodes sanitize_filename urljoin os_path_join).
Local Abbreviation scrape :=
  (scrape_doctor_section sanitize_filename urljoin os_path_join).
Local Abbreviation title_folder_made :=
  (current_title_folder_made sanitize_filename os_path_join).

(** The case analysis of one step, in one place. *)
Lemma step_cases url key folder st n :
  counters_inv st ->
  (exists raw, n = H2 raw
     /\ (strip raw = "" \/ safe raw = "")
     /\ step url key folder st n
        = ([], Returned (ScrapeState None (image_counters st)
                           (titles_for_doctor st) (titles_seen st))))
  \/ (exists raw, n = H2 raw
        /\ valid_heading sanitize_filename raw
        /\ (safe raw ∈ titles_seen st)
        /\ step url key folder st n
           = ([Makedirs (os_path_join folder (safe raw))],
              Returned (ScrapeState (Some (strip raw))
                          (<[strip raw := 0]> (image_counters st))
                          (titles_for_doctor st) (titles_seen st))))
  \/ (exists raw, n = H2 raw
        /\ valid_heading sanitize_filename raw
        /\ (safe raw ∉ titles_seen st)
        /\ step url key folder st n
           = ([Makedirs (os_path_join folder (safe raw))],
              Returned (ScrapeState (Some (strip raw))
                          (<[strip raw := 0]> (image_counters st))
                          (titles_for_doctor st
                             ++ [Row key (lower (strip raw)) (safe raw)])
                          ({[safe raw]} ∪ titles_seen st))))
  \/ (exists src, n = Img src
        /\ (current_title st = None \/ usable_src src = None)
        /\ step url key folder st n = ([], Returned st))
  \/ (exists src title s k, n = Img src
        /\ current_title st = Some title
        /\ usable_src src = Some s
        /\ image_counters st !! title = Some k
        /\ step url key folder st n
           = ([DownloadImage (urljoin url s)
                 (os_path_join (os_path_join folder (safe title))
                    ("page_" ++ format_02d (S k) ++ ".jpg"));
               Sleep],
              Returned (ScrapeState (Some title)
                          (<[title := S k]> (image_counters st))
                          (titles_for_doctor st) (titles_seen st)))).
Proof.
  intros Hinv. destruct n as [raw|src].
  - destruct (decide (strip raw = "" \/ safe raw = "")) as [Hs|Hv].
    + left. exists raw. split; [reflexivity|]. split; [exact Hs|].
      now apply step_heading_skip.
    + assert (Hvalid : valid_heading sanitize_filename raw)
        by (split; intros E; apply Hv; tauto).
      pose proof (step_heading_valid sanitize_filename urljoin os_path_join
                    url key folder st raw Hvalid) as Hstep.
      destruct (decide (safe raw ∈ titles_seen st)) as [Hin|Hout].
      * right; left. exists raw. split; [reflexivity|].
        split; [exact Hvalid|]. split; [exact Hin|exact Hstep].
      * right; right; left. exists raw. split; [reflexivity|].
        split; [exact Hvalid|]. split; [exact Hout|exact Hstep].
  - do 3 right. destruct (current_title st) as [title|] eqn:Ht.
    + destruct (usable_src src) as [s|] eqn:Hs.
      * unfold counters_inv in Hinv. rewrite Ht in Hinv.
        destruct Hinv as [k Hk]. right. exists src, title, s, k.
        repeat split; try assumption.
        now apply step_img_download.
      * left. exists src. split; [reflexivity|]. split; [now right|].
        apply step_img_skip. now right.
    + left. exists src. split; [reflexivity|]. split; [now left|].
      apply step_img_skip. now left.
Qed.

Lemma run_cons url key folder st n rest ev0 st1 ev r :
  step url key folder st n = (ev0, Returned st1) ->
  run url key folder st1 rest = (ev, r) ->
  run url key folder st (n :: rest) = ((ev0 ++ ev)%list, r).
Proof.
  intros Hstep Hrun. unfold scrape_nodes in *. cbn [for_each].
  now apply bind_returned with (a := st1).
Qed.

Lemma run_images_no_title url key folder srcs : forall st,
  current_title st = None ->
  run url key folder st (map Img srcs) = ([], Returned st).
Proof.
  induction srcs as [|src r IH]; intros st Ht; [reflexivity|].
  change (map Img (src :: r)) with (Img src :: map Img r).
  apply (run_cons _ _ _ st (Img src) (map Img r) [] st [] (Returned st)).
  - apply step_img_skip. now left.
  - now apply IH.
Qed.

(** X5: images with no current title are dropped without a trace: those
    before the first heading, and those that follow a heading that is
    empty once stripped or once sanitized, whatever title was current
    before it. *)
Theorem images_without_title_dropped
    (url key folder : string) (st : scrape_state) (raw : string)
    (srcs : list (option string)) :
  strip raw = "" \/ safe raw = "" ->
  run url key folder scrape_init (map Img srcs) = ([], Returned scrape_init)
  /\ run url key folder st (H2 raw :: map Img srcs)
     = ([], Returned (ScrapeState None (image_counters st)
                        (titles_for_doctor st) (titles_seen st))).
Proof.
  intros Hraw. split; [now apply run_images_no_title|].
  eapply (run_cons _ _ _ st (H2 raw) (map Img srcs) []).
  - now apply step_heading_skip.
  - now apply run_images_no_title.
Qed.

Lemma run_downloads_made url key folder nodes : forall st made,
  counters_inv st ->
  title_folder_made folder made st ->
  downloads_in_made_folders os_path_join made
    (fst (run url key folder st nodes)).
Proof.
  induction nodes as [|n rest IH]; intros st made Hinv Hmade; [exact I|].
  destruct (step_returns sanitize_filename urljoin os_path_join
              url key folder st n Hinv) as (ev0 & st1 & Hstep & Hinv1).
  destruct (run url key folder st1 rest) as [ev r] eqn:Hrun.
  rewrite (run_cons _ _ _ _ _ _ _ _ _ _ Hstep Hrun). cbn [fst].
  assert (H0 : downloads_in_made_folders os_path_join made ev0
               /\ title_folder_made folder (made_after made ev0) st1).
  { destruct (step_cases url key folder st n Hinv)
      as [(raw & -> & _ & E)|[(raw & -> & _ & _ & E)|[(raw & -> & _ & _ & E)
         |[(src & -> & _ & E)|(src & title & s & k & -> & Ht & _ & _ & E)]]]];
      rewrite E in Hstep; inversion Hstep; subst; clear Hstep.
    - split; exact I.
    - split; [exact I|]. unfold current_title_folder_made. simpl.
      rewrite make_safe_name_strip. apply list_elem_of_here.
    - split; [exact I|]. unfold current_title_folder_made. simpl.
      rewrite make_safe_name_strip. apply list_elem_of_here.
    - split; [exact I|exact Hmade].
    - unfold current_title_folder_made in Hmade. rewrite Ht in Hmade. split.
      + simpl. split; [|exact I]. eauto.
      + unfold current_title_folder_made. simpl. exact Hmade. }
  destruct H0 as [Hev0 Hmade1].
  apply downloads_in_made_folders_app; [exact Hev0|].
  specialize (IH st1 _ Hinv1 Hmade1). now rewrite Hrun in IH.
Qed.

(** X6: in the log of a section every image is saved to a file of a
    folder that [os.makedirs] has made earlier in that log, whether the
    page is fetched or not. *)
Theorem downloads_go_to_made_folders
    (w : world) (url key root : string) :
  downloads_in_made_folders os_path_join []
    (fst (scrape w url key root)).
Proof.
  destruct (page_nodes w url) as [nodes|] eqn:Hp.
  - destruct (run_returns sanitize_filename urljoin os_path_join url key
                (os_path_join root key) nodes scrape_init scrape_init_inv)
      as (ev & st & Hrun & _).
    rewrite (scrape_section_ok _ _ _ _ _ _ _ _ _ _ Hp Hrun). cbn.
    pose proof (run_downloads_made url key (os_path_join root key) nodes
                  scrape_init [os_path_join root key] scrape_init_inv I) as H.
    now rewrite Hrun in H.
  - now rewrite (scrape_section_fail _ _ _ _ _ _ _ Hp).
Qed.

Lemma length_filter_app {A} (p : A -> bool) (l1 l2 : list A) :
  length (List.filter p (l1 ++ l2))
  = length (List.filter p l1) + length (List.filter p l2).
Proof. now rewrite List.filter_app, length_app. Qed.

(** X7: the log of the loop is made of one piece per node, which is
    empty, one [os.makedirs], or one download followed by its pause; and
    there are at most as many downloads as [img] nodes with a non-empty
    [src]. *)
Theorem loop_log_shape
    (url key folder : string) (nodes : list node) :
  exists pieces,
    fst (run url key folder scrape_init nodes) = concat pieces
    /\ length pieces = length nodes
    /\ Forall node_log pieces
    /\ length (List.filter is_download
                 (fst (run url key folder scrape_init nodes)))
       <= length (usable_srcs (img_srcs nodes)).
Proof.
  generalize scrape_init_inv. generalize scrape_init.
  induction nodes as [|n rest IH]; intros st Hinv.
  - exists []. repeat split; simpl; auto.
  - destruct (step_returns sanitize_filename urljoin os_path_join
                url key folder st n Hinv) as (ev0 & st1 & Hstep & Hinv1).
    destruct (IH st1 Hinv1) as (pieces & Hcat & Hlen & Hall & Hcount).
    destruct (run url key folder st1 rest) as [ev r] eqn:Hrun.
    rewrite (run_cons _ _ _ _ _ _ _ _ _ _ Hstep Hrun). cbn [fst] in *.
    exists (ev0 :: pieces). rewrite length_filter_app.
    destruct (step_cases url key folder st n Hinv)
      as [(raw & -> & _ & E)|[(raw & -> & _ & _ & E)|[(raw & -> & _ & _ & E)
         |[(src & -> & _ & E)|(src & title & s & k & -> & _ & Hs & _ & E)]]]];
      rewrite E in Hstep; inversion Hstep; subst ev0; clear Hstep;
      (split; [simpl; now rewrite Hcat|]);
      (split; [simpl; now rewrite Hlen|]);
      (split; [constructor; [|exact Hall]|]).
    + now left.
    + simpl. exact Hcount.
    + right; left. eauto.
    + simpl. exact Hcount.
    + right; left. eauto.
    + simpl. exact Hcount.
    + now left.
    + simpl. destruct (usable_src src); simpl; lia.
    + right; right. eauto.
    + simpl. rewrite Hs. simpl. lia.
Qed.

Lemma run_seen_rows url key folder nodes : forall st,
  counters_inv st ->
  titles_seen st = list_to_set (map title_safe (titles_for_doctor st)) ->
  exists ev st',
    run url key folder st nodes = (ev, Returned st')
    /\ titles_seen st' = list_to_set (map title_safe (titles_for_doctor st')).
Proof.
  induction nodes as [|n rest IH]; intros st Hinv Hsync.
  - exists [], st. now split.
  - destruct (step_returns sanitize_filename urljoin os_path_join
                url key folder st n Hinv) as (ev0 & st1 & Hstep & Hinv1).
    assert (Hsync1 : titles_seen st1
                     = list_to_set (map title_safe (titles_for_doctor st1))).
    { destruct (step_cases url key folder st n Hinv)
        as [(raw & -> & _ & E)|[(raw & -> & _ & _ & E)|[(raw & -> & _ & _ & E)
           |[(src & -> & _ & E)|(src & title & s & k & -> & _ & _ & _ & E)]]]];
        rewrite E in Hstep; inversion Hstep; subst; clear Hstep; simpl;
        try exact Hsync.
      rewrite map_app, list_to_set_app_L, <- Hsync. simpl. set_solver. }
    destruct (IH st1 Hinv1 Hsync1) as (ev & st' & Hrun & Hsync').
    exists (ev0 ++ ev)%list, st'. split; [|exact Hsync'].
    now apply (run_cons _ _ _ _ _ _ _ _ _ _ Hstep Hrun).
Qed.

(** X8: at the end of the loop [titles_seen] is exactly the set of the
    safe names of the rows in [titles_for_doctor]. *)
Theorem titles_seen_are_row_names
    (url key folder : string) (nodes : list node) :
  exists ev st,
    run url key folder scrape_init nodes = (ev, Returned st)
    /\ titles_seen st = list_to_set (map title_safe (titles_for_doctor st))
    /\ (forall s, s ∈ titles_seen st
                  <-> exists r, r ∈ titles_for_doctor st /\ title_safe r = s).
Proof.
  destruct (run_seen_rows url key folder nodes scrape_init scrape_init_inv
              eq_refl) as (ev & st & Hrun & Hsync).
  exists ev, st. split; [exact Hrun|]. split; [exact Hsync|].
  intros s. rewrite Hsync, elem_of_list_to_set, list_elem_of_fmap.
  split; intros (r & H1 & H2); exists r; auto.
Qed.

End LoopProperties.

Lemma images_without_title_dropped_witness :
  scrape_nodes sanitize_filename_model urljoin_absolute posix_join
    "http://example.org/" "first_doctor" "/root/first_doctor"
    (ScrapeState (Some "A") {["A" := 2]} [Row "first_doctor" "a" "a"] {["a"]})
    (H2 "???" :: map Img [Some "1.jpg"; Some "2.jpg"])
  = ([], Returned (ScrapeState None {["A" := 2]}
                     [Row "first_doctor" "a" "a"] {["a"]})).
Proof.
  destruct (images_without_title_dropped sanitize_filename_model
              urljoin_absolute posix_join "http://example.org/" "first_doctor"
              "/root/first_doctor"
              (ScrapeState (Some "A") {["A" := 2]}
                           [Row "first_doctor" "a" "a"] {["a"]})
              "???" [Some "1.jpg"; Some "2.jpg"]) as [_ H].
  - right. reflexivity.
  - exact H.
Defined.

(** ** [main] *)

Lemma http_urls_app l1 l2 :
  http_urls (l1 ++ l2) = (http_urls l1 ++ http_urls l2)%list.
Proof.
  induction l1 as [|e l1 IH]; [reflexivity|].
  destruct e; simpl; now rewrite ?IH.
Qed.

Lemma http_urls_loop ev :
  Forall (fun e => is_loop_event e = true) ev -> http_urls ev = [].
Proof.
  induction 1 as [|e ev He _ IH]; [reflexivity|].
  destruct e; simpl in *; try discriminate; exact IH.
Qed.

Section MainProperties.
Import PyStr PyStrFacts.

Variable sanitize_filename : string -> string.
Variable urljoin : string -> string -> string.
Variable os_path_join : string -> string -> string.

Local Abbreviation scrape :=
  (scrape_doctor_section sanitize_filename urljoin os_path_join).
Local Abbreviation section :=
  (main_section sanitize_filename urljoin os_path_join).
Local Abbreviation root_of w :=
  (os_path_join (os_path_join (home_dir w) "Desktop") "comic_images").
Local Abbreviation program :=
  (main sanitize_filename urljoin os_path_join).

(** One pass of the loop of [main]: skipped, fetched or failed. *)
Lemma section_cases w root rows k :
  (section_urls [k] = []
   /\ section_rows sanitize_filename w k = []
   /\ section w root rows k = ([], Returned rows))
  \/ (exists url ev,
        dict_get DOCTOR_SECTIONS k = Some url
        /\ page_nodes w url <> None
        /\ section_urls [k] = [url]
        /\ http_urls ev = [url]
        /\ Forall (fun e => is_manifest_write e = false) ev
        /\ section w root rows k
           = (ev, Returned (rows ++ section_rows sanitize_filename w k)%list))
  \/ (exists url ev,
        dict_get DOCTOR_SECTIONS k = Some url
        /\ page_nodes w url = None
        /\ section_urls [k] = [url]
        /\ http_urls ev = [url]
        /\ Forall (fun e => is_manifest_write e = false) ev
        /\ section w root rows k = (ev, Raised RequestException)).
Proof.
  unfold main_section, section_rows. cbn [section_urls].
  destruct (dict_get DOCTOR_SECTIONS k) as [url|] eqn:Hd; [|now left].
  destruct (is_empty url) eqn:He; [now left|]. right.
  destruct (page_nodes w url) as [nodes|] eqn:Hp.
  - left.
    destruct (run_rows sanitize_filename urljoin os_path_join url k
                (os_path_join root k) nodes scrape_init scrape_init_inv)
      as (ev & st & Hrun & Hrows).
    simpl in Hrows. rewrite <- Hrows.
    pose proof (scrape_section_ok _ _ _ _ _ _ _ _ _ _ Hp Hrun) as Hs.
    exists url, (Makedirs (os_path_join root k) :: HttpGet url :: ev).
    split; [reflexivity|]. split; [congruence|]. split; [reflexivity|].
    pose proof (run_events _ _ _ _ _ _ _ _ _ _ Hrun) as Hloop.
    split; [simpl; now rewrite (http_urls_loop _ Hloop)|]. split.
    + do 2 (constructor; [reflexivity|]).
      eapply Forall_impl; [exact Hloop|]. now intros [] He'.
    + rewrite Hs. unfold bind, ret. now rewrite app_nil_r.
  - right. exists url, [Makedirs (os_path_join root k); HttpGet url].
    split; [reflexivity|]. split; [exact Hp|]. split; [reflexivity|].
    split; [reflexivity|]. split; [now repeat constructor|].
    now rewrite (scrape_section_fail _ _ _ _ _ _ _ Hp).
Qed.

Lemma section_urls_cons k keys :
  section_urls (k :: keys) = (section_urls [k] ++ section_urls keys)%list.
Proof.
  cbn [section_urls].
  destruct (dict_get DOCTOR_SECTIONS k) as [url|]; [|reflexivity].
  destruct (is_empty url); reflexivity.
Qed.

(** The loop of [main]: either every page is fetched and the rows are
    those of the sections in order, or it stops at the first page that
    is not. *)
Lemma sections_run w root keys : forall rows,
  (exists ev,
      for_each (section w root) rows keys
      = (ev, Returned (rows ++ flat_map (section_rows sanitize_filename w)
                                        keys)%list)
      /\ http_urls ev = section_urls keys
      /\ Forall (fun e => is_manifest_write e = false) ev
      /\ (forall k url, k ∈ keys -> dict_get DOCTOR_SECTIONS k = Some url ->
                        url <> "" -> page_nodes w url <> None))
  \/ (exists ev rest,
         for_each (section w root) rows keys = (ev, Raised RequestException)
         /\ section_urls keys = (http_urls ev ++ rest)%list
         /\ Forall (fun e => is_manifest_write e = false) ev
         /\ exists k url, k ∈ keys /\ dict_get DOCTOR_SECTIONS k = Some url
                          /\ page_nodes w url = None).
Proof.
  induction keys as [|k keys IH]; intros rows.
  - left. exists []. simpl. rewrite app_nil_r.
    repeat split; try constructor. intros k url Hk. now apply elem_of_nil in Hk.
  - rewrite section_urls_cons. cbn [for_each flat_map].
    destruct (section_cases w root rows k)
      as [(Hu & Hr & Hs)|[(url & ev0 & Hd & Hp & Hu & Hh & Hw & Hs)
                         |(url & ev0 & Hd & Hp & Hu & Hh & Hw & Hs)]].
    + rewrite Hu, Hr, Hs.
      change (@nil event, Returned rows) with (ret rows).
      rewrite !bind_ret_l. cbn [app].
      destruct (IH rows) as [(ev & Hfor & Hurls & Hnw & Hok)
                            |(ev & rest & Hfor & Hurls & Hnw & k' & url' & Hk' & Hd' & Hp')].
      * left. exists ev. repeat split; try assumption.
        intros k' url' Hk' Hd' Hne.
        apply elem_of_cons in Hk' as [->|Hk']; [|now apply (Hok k' url')].
        exfalso. cbn [section_urls] in Hu. rewrite Hd' in Hu.
        destruct (is_empty url') eqn:He; [|discriminate].
        now apply is_empty_true in He.
      * right. exists ev, rest. repeat split; try assumption.
        exists k', url'. split; [now apply list_elem_of_further|now split].
    + rewrite Hu.
      destruct (IH (rows ++ section_rows sanitize_filename w k)%list)
        as [(ev & Hfor & Hurls & Hnw & Hok)
           |(ev & rest & Hfor & Hurls & Hnw & k' & url' & Hk' & Hd' & Hp')].
      * left. exists (ev0 ++ ev)%list. split; [|split; [|split]].
        -- rewrite app_assoc. eapply bind_returned; [exact Hs|exact Hfor].
        -- now rewrite http_urls_app, Hh, Hurls.
        -- apply Forall_app. now split.
        -- intros k' url' Hk' Hd' Hne.
           apply elem_of_cons in Hk' as [->|Hk']; [|now apply (Hok k' url')].
           congruence.
      * right. exists (ev0 ++ ev)%list, rest. split; [|split; [|split]].
        -- eapply bind_returned; [exact Hs|exact Hfor].
        -- now rewrite http_urls_app, Hh, Hurls, app_assoc.
        -- apply Forall_app. now split.
        -- exists k', url'. split; [now apply list_elem_of_further|now split].
    + right. exists ev0, (section_urls keys). split; [|split; [|split]].
      * now apply bind_raised.
      * now rewrite Hu, Hh.
      * exact Hw.
      * exists k, url. split; [apply list_elem_of_here|now split].
Qed.

Lemma program_log w ev r :
  for_each (section w (root_of w)) [] (choose_doctor_keys w) = (ev, r) ->
  program w
  = match r with
    | Returned rows =>
        (Makedirs (root_of w)
           :: ev ++ manifest_writes os_path_join (root_of w) rows,
         Returned tt)
    | Raised e => (Makedirs (root_of w) :: ev, Raised e)
    end.
Proof.
  intros Hfor. destruct (choose_doctor_keys w) as [|k keys] eqn:Hk.
  - inversion Hfor; subst. now rewrite main_aborted.
  - rewrite <- Hk in Hfor.
    assert (Hne : choose_doctor_keys w <> []) by now rewrite Hk.
    rewrite (main_sections _ _ _ w _ _ Hne Hfor).
    destruct r as [[|x rows]|e]; simpl; [now rewrite app_nil_r|reflexivity..].
Qed.

(** X9: [main] returns normally only when the page of every selected
    section has been fetched; it never ends with a [KeyError]; and when
    it ends with the exception of [requests], the page of a selected
    section could not be fetched. *)
Theorem main_return_needs_every_page (w : world) :
  (snd (program w) = Returned tt ->
   forall k url, k ∈ choose_doctor_keys w ->
                 dict_get DOCTOR_SECTIONS k = Some url ->
                 page_nodes w url <> None)
  /\ (forall key, snd (program w) <> Raised (KeyError key))
  /\ (snd (program w) = Raised RequestException ->
      exists k url, k ∈ choose_doctor_keys w
                    /\ dict_get DOCTOR_SECTIONS k = Some url
                    /\ page_nodes w url = None).
Proof.
  destruct (sections_run w (root_of w) (choose_doctor_keys w) [])
    as [(ev & Hfor & _ & _ & Hok)|(ev & rest & Hfor & _ & _ & Hfail)];
    rewrite (program_log w _ _ Hfor); cbn [snd].
  - split; [|split; [discriminate|discriminate]].
    intros _ k url Hk Hd. apply (Hok k url Hk Hd).
    destruct (sections_cases k url (dict_get_sections _ _ Hd)) as [He _].
    now apply is_empty_false.
  - split; [discriminate|]. split; [discriminate|]. intros _. exact Hfail.
Qed.

(** X10: whenever [main] returns normally, the last things it did are
    to write the CSV and then the PDF of the rows of the selected
    sections in selection order, each section deduplicated on its own;
    it wrote neither when there is no row, and no manifest before. *)
Theorem returned_run_writes_manifest_last (w : world) :
  snd (program w) = Returned tt ->
  let all_rows :=
    flat_map (section_rows sanitize_filename w) (choose_doctor_keys w) in
  exists ev,
    Forall (fun e => is_manifest_write e = false) ev
    /\ fst (program w)
       = Makedirs (root_of w)
           :: ev ++ manifest_writes os_path_join (root_of w) all_rows.
Proof.
  intros Hret all_rows.
  destruct (sections_run w (root_of w) (choose_doctor_keys w) [])
    as [(ev & Hfor & _ & Hnw & _)|(ev & rest & Hfor & _ & _ & _)];
    rewrite (program_log w _ _ Hfor) in *; cbn [fst snd] in *.
  - exists ev. now split.
  - discriminate.
Qed.

(** X11: the pages are requested in selection order, one request per
    section, up to the first failure: the requests of the log are a
    prefix of the URLs of the selected sections, and all of them when
    [main] returns. *)
Theorem page_requests_follow_selection (w : world) :
  (exists rest,
      section_urls (choose_doctor_keys w)
      = (http_urls (fst (program w)) ++ rest)%list)
  /\ (snd (program w) = Returned tt ->
      http_urls (fst (program w)) = section_urls (choose_doctor_keys w)).
Proof.
  assert (Hw : forall rows,
             http_urls (manifest_writes os_path_join (root_of w) rows) = []).
  { now intros [|x rows]. }
  destruct (sections_run w (root_of w) (choose_doctor_keys w) [])
    as [(ev & Hfor & Hurls & _ & _)|(ev & rest & Hfor & Hurls & _ & _)];
    rewrite (program_log w _ _ Hfor); cbn [fst snd http_urls].
  - rewrite http_urls_app, Hw, app_nil_r, Hurls. split; [|reflexivity].
    exists []. now rewrite app_nil_r.
  - split; [now exists rest|discriminate].
Qed.

End MainProperties.

Lemma main_return_needs_every_page_witness :
  exists k url,
    k ∈ choose_doctor_keys world_second_fails
    /\ dict_get DOCTOR_SECTIONS k = Some url
    /\ page_nodes world_second_fails url = None.
Proof.
  apply (main_return_needs_every_page sanitize_filename_model
           urljoin_absolute posix_join world_second_fails).
  reflexivity.
Defined.

Lemma returned_run_writes_manifest_last_witness :
  exists ev,
    Forall (fun e => is_manifest_write e = false) ev
    /\ fst (main_posix world_two_titles)
       = Makedirs "/home/user/Desktop/comic_images"
           :: ev ++ [WriteCsv "/home/user/Desktop/comic_images/titles_list.csv"
                       (csv_table [Row "first_doctor" "a" "a";
                                   Row "first_doctor" "b" "b"]);
                     WritePdf "/home/user/Desktop/comic_images/titles_list.pdf"
                       (pdf_table [Row "first_doctor" "a" "a";
                                   Row "first_doctor" "b" "b"])].
Proof.
  apply (returned_run_writes_manifest_last sanitize_filename_model
           urljoin_absolute posix_join world_two_titles).
  reflexivity.
Defined.

Lemma page_requests_follow_selection_witness :
  http_urls (fst (main_posix world_no_titles))
  = ["https://classicdoctorwhocomics.wordpress.com/first-doctor-comics/"].
Proof.
  apply (page_requests_follow_selection sanitize_filename_model
           urljoin_absolute posix_join world_no_titles).
  reflexivity.
Defined.

(** ** The names of the page files *)

Lemma string_app_cons x (a b : string) : String x a ++ b = String x (a ++ b).
Proof. reflexivity. Qed.

Lemma string_app_nil (b : string) : "" ++ b = b.
Proof. reflexivity. Qed.

Lemma string_app_assoc (a b c : string) : (a ++ b) ++ c = a ++ (b ++ c).
Proof.
  induction a as [|x a IH]; [reflexivity|].
  rewrite !string_app_cons. f_equal. exact IH.
Qed.

Lemma string_app_inv_head (a b c : string) : a ++ b = a ++ c -> b = c.
Proof.
  induction a as [|x a IH]; [auto|].
  rewrite !string_app_cons. intros [= H]. now apply IH.
Qed.

Lemma string_length_app (a b : string) :
  String.length (a ++ b) = String.length a + String.length b.
Proof.
  induction a as [|x a IH]; [reflexivity|].
  rewrite string_app_cons. cbn [String.length]. rewrite IH. reflexivity.
Qed.

Lemma string_app_inv_tail (a b c : string) : a ++ c = b ++ c -> a = b.
Proof.
  revert b. induction a as [|x a IH]; intros [|y b] H.
  - reflexivity.
  - apply (f_equal String.length) in H.
    rewrite string_app_nil, string_length_app in H.
    cbn [String.length] in H. lia.
  - apply (f_equal String.length) in H.
    rewrite string_app_nil, string_length_app in H.
    cbn [String.length] in H. lia.
  - rewrite !string_app_cons in H. injection H as -> H. f_equal.
    now apply IH.
Qed.

Lemma str_of_nat_inj m n : PyStr.str_of_nat m = PyStr.str_of_nat n -> m = n.
Proof.
  unfold PyStr.str_of_nat. intros H.
  apply (f_equal NilEmpty.uint_of_string) in H.
  rewrite !NilEmpty.usu in H. injection H as H.
  now apply DecimalNat.Unsigned.to_uint_inj.
Qed.

Lemma str_of_nat_no_leading_zero m n :
  String "0" (PyStr.str_of_nat m) = PyStr.str_of_nat n -> m = n.
Proof.
  unfold PyStr.str_of_nat. intros H.
  apply (f_equal NilEmpty.uint_of_string) in H.
  rewrite NilEmpty.usu in H. cbn [NilEmpty.uint_of_string] in H.
  rewrite NilEmpty.usu in H. cbn in H. injection H as H.
  rewrite <- (DecimalNat.Unsigned.of_to n), <- H.
  symmetry. apply (DecimalNat.Unsigned.of_to m).
Qed.

Lemma format_02d_inj m n : PyStr.format_02d m = PyStr.format_02d n -> m = n.
Proof.
  unfold PyStr.format_02d.
  destruct (Nat.ltb_spec m 10) as [Hm|Hm], (Nat.ltb_spec n 10) as [Hn|Hn];
    intros E.
  - injection E as E. now apply str_of_nat_inj.
  - apply str_of_nat_no_leading_zero in E. lia.
  - symmetry in E. apply str_of_nat_no_leading_zero in E. lia.
  - now apply str_of_nat_inj.
Qed.

Lemma page_name_inj m n : page_name m = page_name n -> m = n.
Proof.
  unfold page_name. intros H.
  apply string_app_inv_head, string_app_inv_tail in H.
  now apply format_02d_inj.
Qed.

Lemma posix_join_page folder n :
  posix_join folder (page_name n) = posix_dir folder ++ page_name n.
Proof.
  unfold posix_join, posix_dir, page_name.
  rewrite (string_app_cons "p"). cbv iota.
  destruct (PyStr.is_empty folder); [reflexivity|].
  destruct (String.eqb _ "/"); [reflexivity|].
  now rewrite string_app_assoc.
Qed.

Lemma download_paths_pages uj pj url folder pages :
  download_paths (page_events uj pj url folder pages)
  = map (fun p => pj folder ("page_" ++ PyStr.format_02d p.1 ++ ".jpg")) pages.
Proof.
  induction pages as [|[k s] pages IH]; [reflexivity|].
  simpl. now rewrite <- IH.
Qed.

(** X12: the file name of a page determines its number (also beyond 99,
    where the name gets longer); so under POSIX paths the images of one
    heading occurrence are all saved to different files. *)
Theorem pages_of_one_title_distinct
    (sanitize_filename : string -> string)
    (urljoin : string -> string -> string)
    (url key folder : string) (st : scrape_state) (raw : string)
    (srcs : list (option string)) :
  valid_heading sanitize_filename raw ->
  (forall m n, page_name m = page_name n -> m = n)
  /\ NoDup (download_paths
              (fst (scrape_nodes sanitize_filename urljoin posix_join
                      url key folder st (H2 raw :: map Img srcs)))).
Proof.
  intros Hv. split; [apply page_name_inj|].
  destruct (run_title sanitize_filename urljoin posix_join url key folder
              st raw srcs Hv) as (st' & Hrun & _).
  rewrite Hrun. cbn [fst download_paths].
  rewrite download_paths_pages.
  set (F := posix_join folder (make_safe_name sanitize_filename raw)).
  set (taken := usable_srcs srcs).
  assert (Hfst : (zip (seq 1 (length taken)) taken).*1 = seq 1 (length taken)).
  { apply fst_zip. now rewrite length_seq. }
  assert (Hnd : NoDup (map (fun k => posix_join F (page_name k))
                           ((zip (seq 1 (length taken)) taken).*1))).
  { rewrite Hfst. apply NoDup_fmap_2_strong; [|apply NoDup_seq].
    intros m n _ _ H. rewrite !posix_join_page in H.
    now apply string_app_inv_head, page_name_inj in H. }
  unfold fmap in Hnd. rewrite map_map in Hnd. exact Hnd.
Qed.

Lemma pages_of_one_title_distinct_witness :
  NoDup (download_paths
           (fst (scrape_nodes sanitize_filename_model urljoin_absolute
                   posix_join "http://example.org/" "first_doctor"
                   "/root/first_doctor" scrape_init
                   (H2 "A" :: map Img [Some "1.jpg"; None; Some "1.jpg"])))).
Proof.
  apply (pages_of_one_title_distinct sanitize_filename_model urljoin_absolute
           "http://example.org/" "first_doctor" "/root/first_doctor"
           scrape_init "A" [Some "1.jpg"; None; Some "1.jpg"] valid_heading_A).
Defined.

(** ** What is downloaded, and what the rows depend on *)

Section PageProperties.
Import PyStr PyStrFacts.

Variable sanitize_filename : string -> string.
Variable urljoin : string -> string -> string.
Variable os_path_join : string -> string -> string.

Local Abbreviation run :=
  (scrape_nodes sanitize_filename urljoin os_path_join).
Local Abbreviation scrape :=
  (scrape_doctor_section sanitize_filename urljoin os_path_join).

Lemma download_of_mono url srcs srcs' e :
  (forall s, s ∈ srcs -> s ∈ srcs') ->
  download_of urljoin url srcs e -> download_of urljoin url srcs' e.
Proof.
  intros Hsub. destruct e; simpl; auto.
  intros (s & Hs & E). exists s. auto.
Qed.

Lemma run_download_urls url key folder nodes : forall st,
  counters_inv st ->
  Forall (download_of urljoin url (usable_srcs (img_srcs nodes)))
         (fst (run url key folder st nodes)).
Proof.
  induction nodes as [|n rest IH]; intros st Hinv; [constructor|].
  destruct (step_returns sanitize_filename urljoin os_path_join
              url key folder st n Hinv) as (ev0 & st1 & Hstep & Hinv1).
  specialize (IH st1 Hinv1).
  destruct (run url key folder st1 rest) as [ev r] eqn:Hrun.
  rewrite (run_cons _ _ _ _ _ _ _ _ _ _ _ _ _ Hstep Hrun). cbn [fst] in *.
  apply Forall_app. split.
  - destruct (step_cases sanitize_filename urljoin os_path_join
                url key folder st n Hinv)
      as [(raw & -> & _ & E)|[(raw & -> & _ & _ & E)|[(raw & -> & _ & _ & E)
         |[(src & -> & _ & E)|(src & title & s & k & -> & _ & Hs & _ & E)]]]];
      rewrite E in Hstep; inversion Hstep; subst ev0; clear Hstep;
      repeat constructor.
    simpl. rewrite Hs. exists s. split; [apply list_elem_of_here|reflexivity].
  - eapply Forall_impl; [exact IH|]. intros e.
    apply download_of_mono. intros s Hs.
    destruct n as [raw|src]; simpl; [exact Hs|].
    destruct (usable_src src); [now apply list_elem_of_further|exact Hs].
Qed.

(** X13: a section downloads nothing but what the [img] nodes of its page
    point to: the URL of every download is [urljoin] of the section URL
    and a non-empty [src] of the page. *)
Theorem downloads_come_from_page_srcs
    (w : world) (url key root : string) (nodes : list node) :
  page_nodes w url = Some nodes ->
  Forall (download_of urljoin url (usable_srcs (img_srcs nodes)))
         (fst (scrape w url key root)).
Proof.
  intros Hp.
  destruct (run_returns sanitize_filename urljoin os_path_join url key
              (os_path_join root key) nodes scrape_init scrape_init_inv)
    as (ev & st & Hrun & _).
  rewrite (scrape_section_ok _ _ _ _ _ _ _ _ _ _ Hp Hrun). cbn [fst].
  do 2 (constructor; [exact I|]).
  pose proof (run_download_urls url key (os_path_join root key) nodes
                scrape_init scrape_init_inv) as H.
  now rewrite Hrun in H.
Qed.

(** X14: the rows a section returns depend on the texts of its headings
    only: images, their number and their [src] play no part, and a title
    without any image has its row all the same. *)
Theorem rows_depend_on_headings_only
    (w1 w2 : world) (url1 url2 key root1 root2 : string)
    (nodes1 nodes2 : list node) :
  page_nodes w1 url1 = Some nodes1 ->
  page_nodes w2 url2 = Some nodes2 ->
  heading_texts nodes1 = heading_texts nodes2 ->
  snd (scrape w1 url1 key root1) = snd (scrape w2 url2 key root2)
  /\ snd (scrape w1 url1 key root1)
     = Returned (rows_from sanitize_filename key ∅ (heading_texts nodes1)).
Proof.
  intros Hp1 Hp2 Hh.
  destruct (run_rows sanitize_filename urljoin os_path_join url1 key
              (os_path_join root1 key) nodes1 scrape_init scrape_init_inv)
    as (ev1 & st1 & Hrun1 & Hrows1).
  destruct (run_rows sanitize_filename urljoin os_path_join url2 key
              (os_path_join root2 key) nodes2 scrape_init scrape_init_inv)
    as (ev2 & st2 & Hrun2 & Hrows2).
  rewrite (scrape_section_ok _ _ _ _ _ _ _ _ _ _ Hp1 Hrun1).
  rewrite (scrape_section_ok _ _ _ _ _ _ _ _ _ _ Hp2 Hrun2).
  cbn [snd]. simpl in Hrows1, Hrows2. rewrite Hrows1, Hrows2, Hh.
  now split.
Qed.

End PageProperties.

Lemma downloads_come_from_page_srcs_witness :
  Forall (download_of urljoin_absolute
            "https://classicdoctorwhocomics.wordpress.com/first-doctor-comics/"
            ["1.jpg"; "2.jpg"; "3.jpg"; "4.jpg"])
         (fst (scrape_doctor_section sanitize_filename_model urljoin_absolute
                 posix_join world_two_titles
                 "https://classicdoctorwhocomics.wordpress.com/first-doctor-comics/"
                 "first_doctor" "/root")).
Proof.
  apply (downloads_come_from_page_srcs sanitize_filename_model
           urljoin_absolute posix_join world_two_titles
           "https://classicdoctorwhocomics.wordpress.com/first-doctor-comics/"
           "first_doctor" "/root" _ eq_refl).
Defined.

Lemma rows_depend_on_headings_only_witness :
  snd (scrape_doctor_section sanitize_filename_model urljoin_absolute
         posix_join world_two_titles "http://example.org/" "first_doctor"
         "/root")
  = snd (scrape_doctor_section sanitize_filename_model urljoin_absolute
           posix_join world_headings_only "http://example.org/"
           "first_doctor" "/root").
Proof.
  apply (rows_depend_on_headings_only sanitize_filename_model
           urljoin_absolute posix_join world_two_titles world_headings_only
           "http://example.org/" "http://example.org/" "first_doctor"
           "/root" "/root" _ _ eq_refl eq_refl eq_refl).
Defined.
